(** * poe-dat-viewer: the [Viewer] class of [src/app/viewer/Viewer.ts]

    A shallow embedding of the viewer core: the per-byte state columns built
    from the column statistics ([stateColumns]), the load of a file
    ([_loadDat]), the byte-view toggles ([disableByteView],
    [enableByteView]), the schema import loop ([tryImportHeaders]) and the
    row materialisation ([collectData]).

    Conventions.
    - JavaScript numbers that this file reads are byte offsets, lengths,
      counts, row indices and key components: they are modelled as [Z]
      (or [nat] for a count that sizes an array).
    - A thrown exception is a value of [Exn]; a method that mutates the
      viewer returns the state it leaves behind also when it throws.
    - [Header] objects are shared between [this.headers], the
      [header] back-reference of a state column and local variables, and
      are mutated through any of them: they live in a heap ([vw_heap]) and
      are named by address ([href]).  Their type descriptors are held by
      value (see [tryImportHeaders]).
    - Record fields keep the source's names, prefixed where two interfaces
      share a name or where the name is taken in Rocq
      ([col_offset]/[hdr_offset], [st_string], [hdr_length], ...). *)

From Stdlib Require Import ZArith Lia Ascii String HexadecimalString.
From stdpp Require Import base option list strings pretty gmap.

Set Warnings "-register-all".

(** ** Exceptions and results *)

Inductive Exn : Type :=
| TypeError                 (* property access on undefined/null, call of a non-function *)
| Error (message : string)  (* [throw new Error(message)] *)
| BadRef.                   (* the model's heap has no object at an address;
                               no JavaScript program reaches this *)

Inductive Result (A : Type) : Type :=
| Ok (a : A)
| Throw (e : Exn).
Arguments Ok {A} a.
Arguments Throw {A} e.

Definition rbind {A B} (m : Result A) (k : A -> Result B) : Result B :=
  match m with
  | Ok a => k a
  | Throw e => Throw e
  end.

Notation "'try!' x ':=' m 'in' k" := (rbind m (fun x => k))
  (at level 10, x pattern, m at level 100, k at level 200).

Definition isOk {A} (r : Result A) : bool :=
  match r with Ok _ => true | Throw _ => false end.

(** ** Data model *)

(** [ColumnStats] (declared in [dat/analysis]): the fields [stateColumns]
    reads.  [refString], [refArray] and [nullableMemsize] are only tested
    for truthiness. *)
Record ColumnStats : Type := {
  b00 : bool;
  bMax : Z;
  refString : bool;
  refArray : bool;
  nullableMemsize : bool;
  memsize : Z
}.

(** The [stats] member of a [StateColumn]. *)
Record Stats : Type := {
  st_string : bool;
  st_array : bool;
  st_b00 : bool;
  st_nullable : bool;
  st_bMax : string
}.

(** Address of a [Header] object in the heap. *)
Definition href : Type := nat.

Record StateColumn : Type := {
  col_offset : Z;
  colNum99 : string;
  colNum100 : string;
  selected : bool;
  col_header : option href;
  dataStart : bool;
  stats : Stats
}.

(** The type descriptor of a header (declared in [viewer/headers]).  The
    members [boolean], [decimal], [integer] and [string] are objects that
    this file only tests for presence. *)
Record KeyType : Type := { foreign : bool }.
Record RefType : Type := { ref_array : bool }.
Record ByteView : Type := { bv_array : bool }.

Record HeaderType : Type := {
  ty_ref : option RefType;
  ty_boolean : bool;
  ty_decimal : bool;
  ty_integer : bool;
  ty_key : option KeyType;
  ty_string : bool;
  ty_byteView : option ByteView
}.

(** Decoded values, as [readColumn] returns them and as they appear in the
    collected rows.  [VKey rid unknown] is the object
    [{ rid, unknown }] of a foreign key. *)
Inductive Value : Type :=
| VUndefined
| VNull
| VBool (b : bool)
| VNum (n : Z)
| VStr (s : string)
| VKey (rid unknown : Z)
| VArr (items : list Value).

Record CachedView : Type := { entriesRaw : list Value }.

Record Header : Type := {
  hdr_name : option string;
  hdr_offset : Z;
  hdr_length : Z;
  hdr_type : HeaderType;
  cachedView : option CachedView
}.

(** [DatFile] (declared in [dat/dat-file]): the fields this file reads.
    [rowCount] is the number of rows and sizes the arrays of
    [collectData]. *)
Record DatFile : Type := {
  df_memsize : Z;
  rowCount : nat;
  rowLength : Z
}.

Record DatSerializedHeader : Type := {
  ser_name : option string;
  ser_length : option Z;
  ser_type : HeaderType
}.

(** The fields of the [Viewer] object, and the heap of the [Header]
    objects they refer to. *)
Record Viewer : Type := {
  headers : list href;
  columns : list StateColumn;
  datFile : option DatFile;
  columnStats : list ColumnStats;
  rowNumberLength : Z;
  editHeader : option href;
  rowSorting : option (list Z);
  vw_heap : list Header
}.

Record Settings : Type := {
  colNumStart : Z;
  rowNumStart : Z
}.

(** ** Field updates *)

Definition with_stats (f : Stats -> Stats) (c : StateColumn) : StateColumn :=
  {| col_offset := col_offset c; colNum99 := colNum99 c; colNum100 := colNum100 c;
     selected := selected c; col_header := col_header c; dataStart := dataStart c;
     stats := f (stats c) |}.

Definition with_header (h : option href) (c : StateColumn) : StateColumn :=
  {| col_offset := col_offset c; colNum99 := colNum99 c; colNum100 := colNum100 c;
     selected := selected c; col_header := h; dataStart := dataStart c;
     stats := stats c |}.

Definition with_selected (b : bool) (c : StateColumn) : StateColumn :=
  {| col_offset := col_offset c; colNum99 := colNum99 c; colNum100 := colNum100 c;
     selected := b; col_header := col_header c; dataStart := dataStart c;
     stats := stats c |}.

Definition mark_string (s : Stats) : Stats :=
  {| st_string := true; st_array := st_array s; st_b00 := st_b00 s;
     st_nullable := st_nullable s; st_bMax := st_bMax s |}.

Definition mark_array (s : Stats) : Stats :=
  {| st_string := st_string s; st_array := true; st_b00 := st_b00 s;
     st_nullable := st_nullable s; st_bMax := st_bMax s |}.

Definition mark_nullable (s : Stats) : Stats :=
  {| st_string := st_string s; st_array := st_array s; st_b00 := st_b00 s;
     st_nullable := true; st_bMax := st_bMax s |}.

Definition with_byteView (bv : option ByteView) (t : HeaderType) : HeaderType :=
  {| ty_ref := ty_ref t; ty_boolean := ty_boolean t; ty_decimal := ty_decimal t;
     ty_integer := ty_integer t; ty_key := ty_key t; ty_string := ty_string t;
     ty_byteView := bv |}.

Definition with_type (f : HeaderType -> HeaderType) (h : Header) : Header :=
  {| hdr_name := hdr_name h; hdr_offset := hdr_offset h; hdr_length := hdr_length h;
     hdr_type := f (hdr_type h); cachedView := cachedView h |}.

Definition with_name (n : option string) (h : Header) : Header :=
  {| hdr_name := n; hdr_offset := hdr_offset h; hdr_length := hdr_length h;
     hdr_type := hdr_type h; cachedView := cachedView h |}.

Definition with_cachedView (cv : option CachedView) (h : Header) : Header :=
  {| hdr_name := hdr_name h; hdr_offset := hdr_offset h; hdr_length := hdr_length h;
     hdr_type := hdr_type h; cachedView := cv |}.

Definition with_columns (f : list StateColumn -> list StateColumn) (v : Viewer) : Viewer :=
  {| headers := headers v; columns := f (columns v); datFile := datFile v;
     columnStats := columnStats v; rowNumberLength := rowNumberLength v;
     editHeader := editHeader v; rowSorting := rowSorting v; vw_heap := vw_heap v |}.

Definition with_headers (f : list href -> list href) (v : Viewer) : Viewer :=
  {| headers := f (headers v); columns := columns v; datFile := datFile v;
     columnStats := columnStats v; rowNumberLength := rowNumberLength v;
     editHeader := editHeader v; rowSorting := rowSorting v; vw_heap := vw_heap v |}.

Definition with_columnStats (columnStats0 : list ColumnStats) (v : Viewer) : Viewer :=
  {| headers := headers v; columns := columns v; datFile := datFile v;
     columnStats := columnStats0; rowNumberLength := rowNumberLength v;
     editHeader := editHeader v; rowSorting := rowSorting v; vw_heap := vw_heap v |}.

Definition with_rowNumberLength (n : Z) (v : Viewer) : Viewer :=
  {| headers := headers v; columns := columns v; datFile := datFile v;
     columnStats := columnStats v; rowNumberLength := n;
     editHeader := editHeader v; rowSorting := rowSorting v; vw_heap := vw_heap v |}.

Definition with_datFile (datFile0 : option DatFile) (v : Viewer) : Viewer :=
  {| headers := headers v; columns := columns v; datFile := datFile0;
     columnStats := columnStats v; rowNumberLength := rowNumberLength v;
     editHeader := editHeader v; rowSorting := rowSorting v; vw_heap := vw_heap v |}.

Definition with_rowSorting (rowSorting0 : option (list Z)) (v : Viewer) : Viewer :=
  {| headers := headers v; columns := columns v; datFile := datFile v;
     columnStats := columnStats v; rowNumberLength := rowNumberLength v;
     editHeader := editHeader v; rowSorting := rowSorting0; vw_heap := vw_heap v |}.

Definition with_heap (f : list Header -> list Header) (v : Viewer) : Viewer :=
  {| headers := headers v; columns := columns v; datFile := datFile v;
     columnStats := columnStats v; rowNumberLength := rowNumberLength v;
     editHeader := editHeader v; rowSorting := rowSorting v; vw_heap := f (vw_heap v) |}.

(** ** JavaScript array and string primitives *)

(** [Array.prototype.findIndex]: the first index whose element satisfies
    [p], or [-1]. *)
Fixpoint findIndexFrom {A} (p : A -> bool) (i : Z) (l : list A) : Z :=
  match l with
  | [] => (-1)%Z
  | x :: l' => if p x then i else findIndexFrom p (i + 1)%Z l'
  end.

Definition findIndex {A} (p : A -> bool) (l : list A) : Z := findIndexFrom p 0%Z l.

(** A relative index argument of [splice] and [slice], clamped to
    [0 .. len]. *)
Definition relIndex (len i : Z) : Z :=
  if (i <? 0)%Z then Z.max (len + i) 0 else Z.min i len.

(** [l.splice(start, deleteCount, ...items)]: the array after the call. *)
Definition splice {A} (l : list A) (start deleteCount : Z) (items : list A) : list A :=
  let len := Z.of_nat (length l) in
  let s := relIndex len start in
  let d := Z.min (Z.max deleteCount 0) (len - s) in
  take (Z.to_nat s) l ++ items ++ drop (Z.to_nat (s + d)) l.

(** [l.slice(start, end)]. *)
Definition slice {A} (l : list A) (start end_ : Z) : list A :=
  let len := Z.of_nat (length l) in
  let k := relIndex len start in
  let f := relIndex len end_ in
  take (Z.to_nat (f - k)) (drop (Z.to_nat k) l).

(** [l[i]] for a number [i]: [undefined] (here [None]) out of range. *)
Definition at_index {A} (l : list A) (i : Z) : option A :=
  if (i <? 0)%Z then None else l !! Z.to_nat i.

(** [l[i] = f(l[i])] for an index known to be in range. *)
Definition update_index {A} (f : A -> A) (l : list A) (i : Z) : list A :=
  alter f (Z.to_nat i) l.

Fixpoint string_rep (n : nat) (c : ascii) : string :=
  match n with
  | O => EmptyString
  | S n' => String c (string_rep n' c)
  end.

(** [s.padStart(target, c)] for a one-character pad string. *)
Definition padStart (target : nat) (c : ascii) (s : string) : string :=
  string_rep (target - String.length s) c +:+ s.

(** [String(n)] and [n.toString(16)] for an integer [n]. *)
Definition toString10 (n : Z) : string := pretty n.
Definition toString16 (n : Z) : string := NilZero.string_of_int (Z.to_hex_int n).

(** ** [stateColumns] *)

(** The object literal of the [map] callback (lines 74-89). *)
Definition initColumn (settings : Settings) (idx : nat) (stat : ColumnStats) : StateColumn :=
  {| col_offset := Z.of_nat idx;
     colNum99 := padStart 2 "0" (toString10 (Z.rem (Z.of_nat idx + colNumStart settings) 100));
     colNum100 := padStart 2 "0" (toString10 (Z.of_nat idx + colNumStart settings));
     selected := false;
     col_header := None;
     dataStart := false;
     stats := {| st_string := false; st_array := false; st_b00 := b00 stat;
                 st_bMax := padStart 2 "0" (toString16 (bMax stat));
                 st_nullable := false |} |}.

(** The inner loops [for (k = 0; k < n; k += 1) columns[idx + k].stats.f = true]:
    [pos] is [idx + k] and [count] the iterations left.  Reading
    [.stats] of [columns[pos]] throws when [pos] is past the end. *)
Fixpoint setFlags (upd : Stats -> Stats) (pos count : nat) (cols : list StateColumn)
  : Result (list StateColumn) :=
  match count with
  | O => Ok cols
  | S count' =>
      match cols !! pos with
      | None => Throw TypeError
      | Some c => setFlags upd (S pos) count' (<[pos := with_stats upd c]> cols)
      end
  end.

(** The body of the outer loop (lines 92-107) for one [idx]. *)
Definition propagate (idx : nat) (stat : ColumnStats) (cols : list StateColumn)
  : Result (list StateColumn) :=
  try! cols := (if refString stat
                then setFlags mark_string idx (Z.to_nat (memsize stat)) cols
                else Ok cols) in
  try! cols := (if refArray stat
                then setFlags mark_array idx (Z.to_nat (memsize stat * 2)) cols
                else Ok cols) in
  if nullableMemsize stat
  then setFlags mark_nullable idx (Z.to_nat (memsize stat)) cols
  else Ok cols.

(** The outer loop from index [idx] on; [rest] is [columnStats.slice(idx)]. *)
Fixpoint propagateFrom (idx : nat) (rest : list ColumnStats) (cols : list StateColumn)
  : Result (list StateColumn) :=
  match rest with
  | [] => Ok cols
  | stat :: rest' =>
      try! cols := propagate idx stat cols in
      propagateFrom (S idx) rest' cols
  end.

Definition stateColumns (settings : Settings) (columnStats : list ColumnStats)
  : Result (list StateColumn) :=
  propagateFrom 0 columnStats (imap (initColumn settings) columnStats).

(** ** The viewer monad

    A method of [Viewer] is a function of the viewer's state that returns
    a result or a thrown exception together with the state it leaves. *)

Definition M (A : Type) : Type := Viewer -> Result A * Viewer.

Definition ret {A} (a : A) : M A := fun v => (Ok a, v).

Definition throw {A} (e : Exn) : M A := fun v => (Throw e, v).

Definition bind {A B} (m : M A) (k : A -> M B) : M B :=
  fun v =>
    match m v with
    | (Ok a, v') => k a v'
    | (Throw e, v') => (Throw e, v')
    end.

Notation "'do!' x ':=' m 'in' k" := (bind m (fun x => k))
  (at level 10, x pattern, m at level 100, k at level 200).

Definition gets {A} (f : Viewer -> A) : M A := fun v => (Ok (f v), v).

Definition modify (f : Viewer -> Viewer) : M unit := fun v => (Ok tt, f v).

Definition lift {A} (r : Result A) : M A := fun v => (r, v).

(** [this.datFile], read again from the viewer. *)
Definition this_datFile : M (option DatFile) := gets datFile.

(** Reading a header object, and assigning to its members. *)
Definition deref (header : href) : M Header :=
  fun v =>
    match vw_heap v !! header with
    | Some h => (Ok h, v)
    | None => (Throw BadRef, v)
    end.

Definition updateHeader (header : href) (f : Header -> Header) : M unit :=
  do! h := deref header in
  modify (with_heap (fun heap => <[header := f h]> heap)).

(** ** [disableByteView] and [enableByteView] *)

Definition disableByteView (header : href) : M unit :=
  do! _ := updateHeader header (with_type (with_byteView None)) in
  do! h := deref header in
  do! cols := gets columns in
  let colIdx := findIndex (fun col => (col_offset col =? hdr_offset h)%Z) cols in
  do! _ := modify (with_columns (fun cols =>
             splice cols (colIdx + 1)%Z (hdr_length h - 1)%Z [])) in
  do! cols := gets columns in
  match at_index cols colIdx with
  | None => throw TypeError
  | Some _ =>
      modify (with_columns (fun cols =>
        update_index (fun c => with_selected false (with_header (Some header) c))
                     cols colIdx))
  end.

Definition enableByteView (settings : Settings) (header : href) : M unit :=
  do! columnStats := gets columnStats in
  do! _ := updateHeader header (with_type (with_byteView (Some {| bv_array := false |}))) in
  do! h := deref header in
  do! cols := gets columns in
  let colIdx := findIndex (fun col => (col_offset col =? hdr_offset h)%Z) cols in
  do! fresh := lift (stateColumns settings columnStats) in
  do! _ := modify (with_columns (fun cols =>
             splice cols (colIdx + 1)%Z 0%Z
                    (slice fresh (hdr_offset h + 1)%Z (hdr_offset h + hdr_length h)%Z))) in
  do! cols := gets columns in
  match at_index cols colIdx with
  | None => throw TypeError
  | Some _ => modify (with_columns (fun cols => update_index (with_header None) cols colIdx))
  end.

(** ** Collaborators

    The functions [Viewer.ts] imports from the other modules of the
    repository.  Those that mutate their arguments (the [columns] array,
    the [headers] array, a header object) act on the viewer's state.
    [byteView] stands for the descriptor a call [byteView()] returns.  The
    imported [settings] object is passed to the methods that read it. *)
Class Collaborators : Type := {
  analyze : DatFile -> list ColumnStats;
  calcRowNumLength : nat -> Z -> Z -> Z;
  byteView : HeaderType;
  getHeaderLength : DatSerializedHeader -> Z -> Z;
  validateImportedHeader : Header -> list ColumnStats -> bool;
  selectColsByHeader : Header -> M unit;
  createHeaderFromSelected : M href;
  clearColumnSelection : M unit;
  cacheHeaderDataView : href -> option DatFile -> M unit;
  readColumn : Header -> option DatFile -> list Value
}.

(** A new header object: its address. *)
Definition alloc (h : Header) : M href :=
  fun v => (Ok (length (vw_heap v)), with_heap (fun heap => heap ++ [h]) v).

Definition ROW_NUM_MIN_LENGTH : Z := 4.

(** ** [_loadDat]

    The fields are assigned in the order of the source; when
    [stateColumns] throws, the fields assigned before it keep their new
    values. *)
Section Load.
Context `{Collaborators}.

Definition _loadDat (settings : Settings) (parsed : DatFile) : M unit :=
  do! _ := modify (with_columnStats (analyze parsed)) in
  do! _ := modify (with_rowNumberLength
             (calcRowNumLength (rowCount parsed) (rowNumStart settings)
                               ROW_NUM_MIN_LENGTH)) in
  do! _ := modify (with_datFile (Some parsed)) in
  do! thisColumnStats := gets columnStats in
  do! cols := lift (stateColumns settings thisColumnStats) in
  do! _ := modify (with_columns (fun _ => cols)) in
  do! _ := modify (with_rowSorting None) in
  if (rowLength parsed =? 0)%Z
  then modify (with_headers (fun _ => []))
  else
    do! header := alloc {| hdr_name := None; hdr_offset := 0;
                           hdr_length := rowLength parsed;
                           hdr_type := byteView; cachedView := None |} in
    modify (with_headers (fun _ => [header])).
End Load.

(** [type.boolean || type.decimal || type.integer || type.key || type.string] *)
Definition materializable (type : HeaderType) : bool :=
  ty_boolean type || ty_decimal type || ty_integer type
  || (match ty_key type with Some _ => true | None => false end) || ty_string type.

(** ** [tryImportHeaders]

    [CPUTask.yield] and [CPUTask.mustYield] only hand control to the host
    scheduler between two iterations; nothing else writes the viewer
    meanwhile (single writer), so they are no steps of the model.
    [datFile] and [columnStats] are the values destructured from [this]
    on entry.  The function is [async]: an exception is the rejection of
    the promise it returns.

    [header.type = type] stores the descriptor object of the serialized
    entry in the header, and [disableByteView] and [enableByteView] write
    [byteView] on that very object.  The model holds a descriptor by value
    in each header: it tracks the [byteView] of the header a method is
    called on, not that of other headers or entries that share its
    descriptor object, and no statement below is about those. *)
Section ImportModel.
Context `{Collaborators}.

(** One iteration of the loop: the offset after the entry. *)
Definition importEntry (datFile : option DatFile) (columnStats : list ColumnStats)
    (offset : Z) (hdrSerialized : DatSerializedHeader) : M Z :=
  match datFile with
  | None => throw TypeError
  | Some df =>
      let headerLength := getHeaderLength hdrSerialized (df_memsize df) in
      match ser_name hdrSerialized with
      | None => ret (offset + headerLength)%Z
      | Some name =>
          let header := {| hdr_name := None; hdr_offset := offset;
                           hdr_length := headerLength;
                           hdr_type := ser_type hdrSerialized;
                           cachedView := None |} in
          if negb (validateImportedHeader header columnStats)
          then throw (Error "The schema is invalid.")
          else
            do! _ := selectColsByHeader header in
            do! header := createHeaderFromSelected in
            do! _ := updateHeader header (with_name (Some name)) in
            do! _ := clearColumnSelection in
            let type := ser_type hdrSerialized in
            do! _ := (if materializable type
                      then
                        do! _ := updateHeader header (with_type (fun _ => type)) in
                        do! thisDatFile := this_datFile in
                        do! _ := cacheHeaderDataView header thisDatFile in
                        disableByteView header
                      else ret tt) in
            ret (offset + headerLength)%Z
      end
  end.

Fixpoint importLoop (datFile : option DatFile) (columnStats : list ColumnStats)
    (offset : Z) (serialized : list DatSerializedHeader) : M Z :=
  match serialized with
  | [] => ret offset
  | hdrSerialized :: rest =>
      do! offset := importEntry datFile columnStats offset hdrSerialized in
      importLoop datFile columnStats offset rest
  end.

Definition tryImportHeaders (serialized : list DatSerializedHeader) : M unit :=
  do! datFile := gets datFile in
  do! columnStats := gets columnStats in
  do! _ := importLoop datFile columnStats 0%Z serialized in
  ret tt.
End ImportModel.

(** ** [collectData] *)

(** A column of the collected data: [{ name, data }]. *)
Record Column : Type := {
  name : string;
  data : list Value
}.

(** A produced row object: its own properties.  The order of the keys is
    not represented. *)
Abbreviation Row := (gmap string Value).

(** [row == null] *)
Definition isNullish (v : Value) : bool :=
  match v with
  | VUndefined | VNull => true
  | _ => false
  end.

(** Truthiness, for [row && row.rid]. *)
Definition truthy (v : Value) : bool :=
  match v with
  | VUndefined | VNull => false
  | VBool b => b
  | VNum n => negb (n =? 0)%Z
  | VStr s => negb (String.eqb s "")
  | VKey _ _ | VArr _ => true
  end.

(** [v.unknown] and [v.rid]: a member of a key object, [undefined] on any
    other object or primitive, a [TypeError] on [null] and [undefined]. *)
Definition getUnknown (v : Value) : Result Value :=
  match v with
  | VKey _ unknown => Ok (VNum unknown)
  | VUndefined | VNull => Throw TypeError
  | _ => Ok VUndefined
  end.

Definition getRid (v : Value) : Result Value :=
  match v with
  | VKey rid _ => Ok (VNum rid)
  | VUndefined | VNull => Throw TypeError
  | _ => Ok VUndefined
  end.

(** [v === 0] *)
Definition strictEqZero (v : Value) : bool :=
  match v with
  | VNum 0 => true
  | _ => false
  end.

(** [l.every(p)] and [l.map(f)] for callbacks that may throw: elements are
    visited in order, [every] stops at the first [false]. *)
Fixpoint every {A} (p : A -> Result bool) (l : list A) : Result bool :=
  match l with
  | [] => Ok true
  | x :: l' => try! b := p x in if b then every p l' else Ok false
  end.

Fixpoint mapR {A B} (f : A -> Result B) (l : list A) : Result (list B) :=
  match l with
  | [] => Ok []
  | x :: l' => try! y := f x in try! ys := mapR f l' in Ok (y :: ys)
  end.

(** Lines 189-203: the foreign-key branch for a key that is not an array
    ([foreignRids]) and for one that is ([foreignRidArrays]).  [row.every]
    and [row.map] exist on arrays only. *)
Definition foreignRids (data : list Value) : Result (list Value) :=
  try! ok := every (fun row =>
               if isNullish row then Ok true
               else try! unknown := getUnknown row in Ok (strictEqZero unknown)) data in
  if negb ok then Throw (Error "never")
  else mapR (fun row => if truthy row then getRid row else Ok row) data.

Definition foreignRidArrays (data : list Value) : Result (list Value) :=
  try! ok := every (fun row =>
               match row with
               | VArr entries =>
                   every (fun entry =>
                            try! unknown := getUnknown entry in Ok (strictEqZero unknown))
                         entries
               | _ => Throw TypeError
               end) data in
  if negb ok then Throw (Error "never")
  else mapR (fun row =>
               match row with
               | VArr entries => try! rids := mapR getRid entries in Ok (VArr rids)
               | _ => Throw TypeError
               end) data.

(** [Object.fromEntries]: a later entry replaces an earlier one with the
    same key. *)
Definition fromEntries (entries : list (string * Value)) : Row :=
  foldl (fun (obj : Row) (e : string * Value) => <[e.1 := e.2]> obj) ∅ entries.

(** [col.data[idx]] *)
Definition dataAt (col : Column) (idx : nat) : Value :=
  default VUndefined (data col !! idx).

(** [Array(n).fill(undefined).map((_, idx) => f(idx))] *)
Definition tabulate {A} (n : nat) (f : nat -> A) : list A := map f (seq 0 n).

(** [header.type.key?.foreign] and [header.type.ref?.array], tested for
    truthiness. *)
Definition isForeign (type : HeaderType) : bool :=
  match ty_key type with Some key => foreign key | None => false end.

Definition isArrayRef (type : HeaderType) : bool :=
  match ty_ref type with Some ref => ref_array ref | None => false end.

(** [header.name || `Unknown${idx + 1}`]: [null] and the empty string are
    falsy. *)
Definition columnName (idx : nat) (header : Header) : string :=
  match hdr_name header with
  | Some s => if String.eqb s "" then "Unknown" +:+ toString10 (Z.of_nat idx + 1) else s
  | None => "Unknown" +:+ toString10 (Z.of_nat idx + 1)
  end.

(** [.filter(({ type }) => type.boolean || ... || type.string)] *)
Definition materializableHeaders (hs : list Header) : list Header :=
  List.filter (fun header => materializable (hdr_type header)) hs.

Section Collect.
Context `{Collaborators}.

(** [header.cachedView?.entriesRaw || readColumn(header, this.datFile!)]:
    an array is truthy. *)
Definition headerData (thisDatFile : option DatFile) (header : Header) : list Value :=
  match cachedView header with
  | Some view => entriesRaw view
  | None => readColumn header thisDatFile
  end.

(** The immediately-invoked function of lines 186-206. *)
Definition columnData (thisDatFile : option DatFile) (header : Header)
  : Result (list Value) :=
  let data := headerData thisDatFile header in
  if isForeign (hdr_type header)
  then
    if negb (isArrayRef (hdr_type header))
    then foreignRids data
    else foreignRidArrays data
  else Ok data.

(** The [map] callback of lines 184-207. *)
Definition toColumn (thisDatFile : option DatFile) (idx : nat) (header : Header)
  : Result Column :=
  let name := columnName idx header in
  try! data := columnData thisDatFile header in
  Ok {| name := name; data := data |}.

(** [.map(toColumn)] from index [idx] on. *)
Fixpoint toColumnsFrom (thisDatFile : option DatFile) (idx : nat) (hs : list Header)
  : Result (list Column) :=
  match hs with
  | [] => Ok []
  | header :: hs' =>
      try! col := toColumn thisDatFile idx header in
      try! cols := toColumnsFrom thisDatFile (S idx) hs' in
      Ok (col :: cols)
  end.

(** The headers of [this.headers], read from the heap. *)
Definition thisHeaders (v : Viewer) : Result (list Header) :=
  mapR (fun header => match vw_heap v !! header with
                      | Some h => Ok h
                      | None => Throw BadRef
                      end) (headers v).

(** Lines 182-207: the columns before [_rid] is put in front. *)
Definition collectColumns (v : Viewer) : Result (list Column) :=
  try! hs := thisHeaders v in
  toColumnsFrom (datFile v) 0 (materializableHeaders hs).

(** The column that [unshift] puts in front (lines 209-213). *)
Definition ridColumn (rowCount : nat) : Column :=
  {| name := "_rid"; data := tabulate rowCount (fun idx => VNum (Z.of_nat idx)) |}.

(** Lines 215-218 for the column list [columns]. *)
Definition buildRows (rowCount : nat) (columns : list Column) : list Row :=
  tabulate rowCount (fun idx =>
    fromEntries (map (fun col => (name col, dataAt col idx)) columns)).

Definition collectData (v : Viewer) : Result (list Row) :=
  try! columns := collectColumns v in
  match datFile v with
  | None => Throw TypeError
  | Some df =>
      let columns := ridColumn (rowCount df) :: columns in
      Ok (buildRows (rowCount df) columns)
  end.
End Collect.

(** What the foreign-key branch makes of an entry it accepts. *)
Definition ridOf (v : Value) : Value :=
  match v with
  | VKey rid _ => VNum rid
  | _ => v
  end.

Definition ridsOf (v : Value) : Value :=
  match v with
  | VArr entries => VArr (ridOf <$> entries)
  | _ => v
  end.

(** An entry of a key that is not an array passes the check of line 192:
    it is [null] or [undefined], or a key whose [unknown] is 0. *)
Definition acceptedKey (v : Value) : bool :=
  match v with
  | VUndefined | VNull => true
  | VKey _ unknown => (unknown =? 0)%Z
  | _ => false
  end.

(** Decoded entries of the declared types: a key or [null] (line 191), an
    array of keys (line 197). *)
Definition isKey (v : Value) : bool :=
  match v with VKey _ _ => true | _ => false end.

Definition isKeyOrNull (v : Value) : bool :=
  match v with VKey _ _ | VNull => true | _ => false end.

Definition isKeyArray (v : Value) : bool :=
  match v with VArr entries => forallb isKey entries | _ => false end.

(** The [unknown] components of an entry are all 0. *)
Definition unknownZero (v : Value) : bool :=
  match v with
  | VKey _ unknown => (unknown =? 0)%Z
  | VArr entries =>
      forallb (fun e => match e with VKey _ u => (u =? 0)%Z | _ => true end) entries
  | _ => true
  end.

(** ** Closed forms of the flag propagation

    What the loops of [stateColumns] compute, column by column; the
    theorems below relate them to the loops. *)

(** [j] lies in the run of [count] columns that starts at [pos]. *)
Definition inRun (pos count j : nat) : bool :=
  (pos <=? j)%nat && (j <? pos + count)%nat.

(** The number of iterations of an inner loop guarded by [flag]. *)
Definition runOf (flag : bool) (n : Z) : nat :=
  if flag then Z.to_nat n else 0%nat.

Definition markRange (upd : Stats -> Stats) (pos count : nat) (cols : list StateColumn)
  : list StateColumn :=
  imap (fun j c => if inRun pos count j then with_stats upd c else c) cols.

(** The effect of the iteration [idx] of the outer loop on column [j]. *)
Definition flagsAt (idx : nat) (stat : ColumnStats) (j : nat) (s : Stats) : Stats :=
  {| st_string := st_string s || inRun idx (runOf (refString stat) (memsize stat)) j;
     st_array := st_array s || inRun idx (runOf (refArray stat) (memsize stat * 2)) j;
     st_b00 := st_b00 s;
     st_nullable := st_nullable s || inRun idx (runOf (nullableMemsize stat) (memsize stat)) j;
     st_bMax := st_bMax s |}.

Fixpoint overlay (idx : nat) (rest : list ColumnStats) (j : nat) (s : Stats) : Stats :=
  match rest with
  | [] => s
  | stat :: rest' => overlay (S idx) rest' j (flagsAt idx stat j s)
  end.

(** Every construct flagged in [columnStats] ends within the array. *)
Definition fitsAt (len : nat) (idx : nat) (stat : ColumnStats) : Prop :=
  (refString stat = true -> Z.of_nat idx + memsize stat <= Z.of_nat len)%Z
  /\ (refArray stat = true -> Z.of_nat idx + 2 * memsize stat <= Z.of_nat len)%Z
  /\ (nullableMemsize stat = true -> Z.of_nat idx + memsize stat <= Z.of_nat len)%Z.

Definition fits (columnStats : list ColumnStats) : Prop :=
  forall idx stat, columnStats !! idx = Some stat -> fitsAt (length columnStats) idx stat.

#[global] Instance fitsAt_dec len idx stat : Decision (fitsAt len idx stat).
Proof. unfold fitsAt. apply _. Defined.

(** The closed form of [stateColumns]. *)
Definition builtColumns (settings : Settings) (columnStats : list ColumnStats)
  : list StateColumn :=
  imap (fun j stat => with_stats (overlay 0 columnStats j) (initColumn settings j stat))
       columnStats.

#[global] Instance fits_dec columnStats : Decision (fits columnStats).
Proof.
  refine (cast_if (decide (Forall (fun p => fitsAt (length columnStats) p.1 p.2)
                                  (imap pair columnStats))));
    unfold fits; rewrite Forall_lookup in *.
  - intros idx stat Hs. apply (f idx (idx, stat)).
    by rewrite list_lookup_imap, Hs.
  - intros Hf. apply n. intros i [idx stat].
    rewrite list_lookup_imap.
    destruct (columnStats !! i) as [st|] eqn:E; simpl; [|done].
    intros [= <- <-]. by apply Hf.
Defined.

(** ** Sample inputs

    Concrete settings, statistics and files on which the model is run. *)

Definition sampleSettings : Settings := {| colNumStart := 0; rowNumStart := 0 |}.

Definition plainStat : ColumnStats :=
  {| b00 := false; bMax := 255; refString := false; refArray := false;
     nullableMemsize := false; memsize := 4 |}.

Definition stringStat : ColumnStats :=
  {| b00 := true; bMax := 10; refString := true; refArray := false;
     nullableMemsize := true; memsize := 4 |}.

Definition arrayStat : ColumnStats :=
  {| b00 := true; bMax := 3; refString := false; refArray := true;
     nullableMemsize := false; memsize := 4 |}.

(** Twelve byte columns: a string reference at 0 and an array reference at 4. *)
Definition sampleStats : list ColumnStats :=
  [stringStat; plainStat; plainStat; plainStat;
   arrayStat; plainStat; plainStat; plainStat;
   plainStat; plainStat; plainStat; plainStat].

(** Eight byte columns without flags. *)
Definition plainStats : list ColumnStats := replicate 8 plainStat.

(** A string reference in the last column: its run of four columns passes
    the end of the array. *)
Definition overrunStats : list ColumnStats := [plainStat; stringStat].

(** ** Views and invariants of the state columns *)

#[global] Instance Stats_eq_dec : EqDecision Stats.
Proof. solve_decision. Defined.

(** What a column shows of the byte it stands for: its offset and its
    statistics.  Two arrays with the same views have the same contents up
    to the identity of the entries, their selection and their header. *)
Definition columnView (c : StateColumn) : Z * Stats := (col_offset c, stats c).

(** The columns of a viewer come from the fresh build of its statistics:
    no offset occurs twice, and every column shows what the fresh column of
    its offset shows. *)
Definition columns_wf (fresh cols : list StateColumn) : Prop :=
  NoDup (col_offset <$> cols)
  /\ Forall (fun c => columnView <$> at_index fresh (col_offset c) = Some (columnView c)) cols.

(** The header [h] was built from the contiguous selection of the
    [h.length] columns at index [i] on: they carry the offsets
    [h.offset], [h.offset + 1], ... *)
Definition selectionAt (cols : list StateColumn) (i : nat) (h : Header) : Prop :=
  (1 <= hdr_length h)%Z
  /\ col_offset <$> take (Z.to_nat (hdr_length h)) (drop i cols)
     = seqZ (hdr_offset h) (hdr_length h).

#[global] Instance columns_wf_dec fresh cols : Decision (columns_wf fresh cols).
Proof. unfold columns_wf. apply _. Defined.

#[global] Instance selectionAt_dec cols i h : Decision (selectionAt cols i h).
Proof. unfold selectionAt. apply _. Defined.

(** The state [disableByteView] leaves when the header's offset is found
    at index [i], which holds column [c]. *)
Definition disabledAt (header : href) (h : Header) (i : nat) (c : StateColumn)
    (v : Viewer) : Viewer :=
  with_columns (fun cols =>
      take i cols
      ++ with_selected false (with_header (Some header) c)
      :: drop (i + Z.to_nat (Z.max (hdr_length h) 1)) cols)
    (with_heap (fun heap => <[header := with_type (with_byteView None) h]> heap) v).

(** The state [enableByteView] leaves when the header's offset is found at
    index [i], which holds column [c], and [fresh] is the fresh build. *)
Definition enabledAt (fresh : list StateColumn) (header : href) (h : Header) (i : nat)
    (c : StateColumn) (v : Viewer) : Viewer :=
  with_columns (fun cols =>
      take i cols
      ++ with_header None c
      :: slice fresh (hdr_offset h + 1)%Z (hdr_offset h + hdr_length h)%Z
      ++ drop (S i) cols)
    (with_heap (fun heap =>
       <[header := with_type (with_byteView (Some {| bv_array := false |})) h]> heap) v).

(** A byte-view header over the bytes 4..11 of [sampleStats], as
    [createHeaderFromSelected] leaves it. *)
Definition byteViewType : HeaderType :=
  {| ty_ref := None; ty_boolean := false; ty_decimal := false; ty_integer := false;
     ty_key := None; ty_string := false;
     ty_byteView := Some {| bv_array := false |} |}.

Definition sampleHeader : Header :=
  {| hdr_name := Some "Tags"; hdr_offset := 4; hdr_length := 8;
     hdr_type := byteViewType; cachedView := None |}.

Definition sampleFile : DatFile := {| df_memsize := 4; rowCount := 3; rowLength := 12 |}.

(** A viewer after [_loadDat] on a file with the statistics [sampleStats],
    holding [sampleHeader] at address 0. *)
Definition sampleViewer : Viewer :=
  {| headers := [0%nat];
     columns := builtColumns sampleSettings sampleStats;
     datFile := Some sampleFile;
     columnStats := sampleStats;
     rowNumberLength := 4;
     editHeader := None;
     rowSorting := None;
     vw_heap := [sampleHeader] |}.

(** ** A sample instance of the collaborators

    The theorems on [tryImportHeaders] and [collectData] hold for every
    instance of [Collaborators].  To run the model on concrete inputs, the
    collaborators are instantiated here after the description the
    specification gives of them (sections 4.2, 4.3 and 6). *)
Module Sample.

(** Modelled from the spec: [getHeaderLength] of [exporters/internal],
    "decode a serialized entry's occupied length"; the sample entries
    record their length, an entry without one occupies [memsize] bytes. *)
Definition getHeaderLength (e : DatSerializedHeader) (memsize : Z) : Z :=
  default memsize (ser_length e).

(** Modelled from the spec: [validateImportedHeader] of
    [exporters/internal]; a string or array field must start at an offset
    flagged with the matching statistic and have the length it implies,
    any other field must lie within the row. *)
Definition validateImportedHeader (header : Header) (columnStats : list ColumnStats)
  : bool :=
  match at_index columnStats (hdr_offset header) with
  | None => false
  | Some stat =>
      if isArrayRef (hdr_type header)
      then refArray stat && (hdr_length header =? 2 * memsize stat)%Z
      else if ty_string (hdr_type header)
      then refString stat && (hdr_length header =? memsize stat)%Z
      else (0 <? hdr_length header)%Z
           && (hdr_offset header + hdr_length header
               <=? Z.of_nat (length columnStats))%Z
  end.

(** Modelled from the spec: [selectColsByHeader] of [viewer/selection],
    "mark the corresponding StateColumns as selected". *)
Definition selectColsByHeader (header : Header) : M unit :=
  modify (with_columns (map (fun c =>
    if ((hdr_offset header <=? col_offset c)
        && (col_offset c <? hdr_offset header + hdr_length header))%Z
    then with_selected true c else c))).

(** Modelled from the spec: [createHeaderFromSelected] of
    [viewer/headers], "promote the selection into a committed Header",
    here appended to the header list as a byte view. *)
Definition createHeaderFromSelected : M href :=
  fun v =>
    match List.filter selected (columns v) with
    | [] => (Throw TypeError, v)
    | c :: sel =>
        let header := {| hdr_name := None; hdr_offset := col_offset c;
                         hdr_length := Z.of_nat (S (length sel));
                         hdr_type := byteViewType; cachedView := None |} in
        (Ok (length (vw_heap v)),
         with_headers (fun hs => hs ++ [length (vw_heap v)])
           (with_heap (fun heap => heap ++ [header]) v))
    end.

(** Modelled from the spec: [clearColumnSelection] of [viewer/selection],
    "clear selection flags". *)
Definition clearColumnSelection : M unit :=
  modify (with_columns (map (with_selected false))).

(** A stand-in for the binary reader [readColumn] of [dat/reader]: the
    value of a field in row [idx] is the position of its first byte in
    the file. *)
Definition readColumn (header : Header) (thisDatFile : option DatFile) : list Value :=
  match thisDatFile with
  | Some df =>
      tabulate (rowCount df)
               (fun idx => VNum (Z.of_nat idx * rowLength df + hdr_offset header))
  | None => []
  end.

(** Modelled from the spec: [cacheHeaderDataView] of [viewer/formatting],
    "eagerly decode and cache its values". *)
Definition cacheHeaderDataView (header : href) (thisDatFile : option DatFile) : M unit :=
  do! h := deref header in
  updateHeader header (with_cachedView (Some {| entriesRaw := readColumn h thisDatFile |})).

(** A stand-in for the analyzer [analyze] of [dat/analysis]: a file
    without references, one plain statistic per byte of a row. *)
Definition analyze (parsed : DatFile) : list ColumnStats :=
  replicate (Z.to_nat (rowLength parsed)) plainStat.

(** A stand-in for [calcRowNumLength] of [viewer/formatting]: the digits
    of the largest row number, at least [minLength]. *)
Definition calcRowNumLength (rowCount : nat) (rowNumStart minLength : Z) : Z :=
  Z.max minLength
        (Z.of_nat (String.length (toString10 (Z.of_nat rowCount - 1 + rowNumStart)))).

Definition collaborators : Collaborators :=
  Build_Collaborators analyze calcRowNumLength byteViewType
    getHeaderLength validateImportedHeader
    selectColsByHeader createHeaderFromSelected clearColumnSelection
    cacheHeaderDataView readColumn.
End Sample.

(** The example of the specification: a row of eight bytes and a schema of
    two integer fields of four bytes. *)
Definition integerType : HeaderType :=
  {| ty_ref := None; ty_boolean := false; ty_decimal := false; ty_integer := true;
     ty_key := None; ty_string := false; ty_byteView := None |}.

Definition stringType : HeaderType :=
  {| ty_ref := None; ty_boolean := false; ty_decimal := false; ty_integer := false;
     ty_key := None; ty_string := true; ty_byteView := None |}.

Definition entryA : DatSerializedHeader :=
  {| ser_name := Some "a"; ser_length := Some 4%Z; ser_type := integerType |}.

Definition entryB : DatSerializedHeader :=
  {| ser_name := Some "b"; ser_length := Some 4%Z; ser_type := integerType |}.

(** A string field declared where the statistics show no string reference. *)
Definition entryBad : DatSerializedHeader :=
  {| ser_name := Some "s"; ser_length := Some 4%Z; ser_type := stringType |}.

(** The viewer before any file is loaded, and one with a file of eight
    plain bytes per row. *)
Definition emptyViewer : Viewer :=
  {| headers := []; columns := []; datFile := None; columnStats := [];
     rowNumberLength := (-1)%Z; editHeader := None; rowSorting := None;
     vw_heap := [] |}.

Definition loadedViewer : Viewer :=
  {| headers := [];
     columns := builtColumns sampleSettings plainStats;
     datFile := Some {| df_memsize := 4; rowCount := 2; rowLength := 8 |};
     columnStats := plainStats;
     rowNumberLength := 4;
     editHeader := None;
     rowSorting := None;
     vw_heap := [] |}.

(** The decoded entries of a foreign key have the declared type: arrays of
    keys for an array key, keys or [null] otherwise. *)
Definition keysWellTyped (type : HeaderType) (data : list Value) : bool :=
  if isArrayRef type then forallb isKeyArray data else forallb isKeyOrNull data.

(** What [collectData] makes of the entries of a foreign key it accepts. *)
Definition keysToRids (type : HeaderType) (data : list Value) : list Value :=
  (if isArrayRef type then ridsOf else ridOf) <$> data.

(** ** Sample headers and viewers for [collectData] *)

Definition keyType (array : bool) : HeaderType :=
  {| ty_ref := Some {| ref_array := array |}; ty_boolean := false; ty_decimal := false;
     ty_integer := false; ty_key := Some {| foreign := true |}; ty_string := false;
     ty_byteView := None |}.

Definition cached (name0 : option string) (offset : Z) (type : HeaderType)
    (entries : list Value) : Header :=
  {| hdr_name := name0; hdr_offset := offset; hdr_length := 4; hdr_type := type;
     cachedView := Some {| entriesRaw := entries |} |}.

Definition idHeader : Header :=
  cached (Some "Id") 0 integerType [VNum 10; VNum 20; VNum 30].

Definition emptyNameHeader : Header :=
  cached (Some "") 4 stringType [VStr "x"; VStr "y"; VStr "z"].

Definition gapHeader : Header :=
  {| hdr_name := None; hdr_offset := 8; hdr_length := 4; hdr_type := byteViewType;
     cachedView := None |}.

Definition uncachedHeader : Header :=
  {| hdr_name := Some "Size"; hdr_offset := 8; hdr_length := 4; hdr_type := integerType;
     cachedView := None |}.

Definition foreignHeader : Header :=
  cached None 4 (keyType false) [VKey 7 0; VNull; VKey 9 0].

Definition foreignArrayHeader : Header :=
  cached (Some "Refs") 8 (keyType true)
         [VArr [VKey 1 0; VKey 2 0]; VArr []; VArr [VKey 3 0]].

Definition brokenKeyHeader : Header :=
  cached (Some "Parent") 4 (keyType false) [VKey 7 0; VKey 8 1; VNull].

Definition ridNamedHeader : Header :=
  cached (Some "_rid") 4 stringType [VStr "x"; VStr "y"; VStr "z"].

Definition secondIdHeader : Header :=
  cached (Some "Id") 8 integerType [VNum 100; VNum 200; VNum 300].

(** A viewer of a file of three rows whose header list is [hs]. *)
Definition viewerOf (hs : list Header) : Viewer :=
  {| headers := seq 0 (length hs);
     columns := [];
     datFile := Some sampleFile;
     columnStats := sampleStats;
     rowNumberLength := 4;
     editHeader := None;
     rowSorting := None;
     vw_heap := hs |}.

Definition plainHeaders : list Header :=
  [idHeader; gapHeader; emptyNameHeader; uncachedHeader].

Definition keyHeaders : list Header := [idHeader; foreignHeader; foreignArrayHeader].

Definition brokenHeaders : list Header := [idHeader; brokenKeyHeader; uncachedHeader].

(** Three materializable headers, none a foreign key: one named ["_rid"]
    and two named ["Id"]. *)
Definition clashHeaders : list Header := [ridNamedHeader; idHeader; secondIdHeader].

Definition secondIdColumn : Column :=
  {| name := "Id"; data := [VNum 100; VNum 200; VNum 300] |}.

(** * Further methods and properties of the viewer *)

(** ** Sample inputs for the load *)

(** A file of eight bytes per row, and one without bytes. *)
Definition fileOfEight : DatFile := {| df_memsize := 4; rowCount := 2; rowLength := 8 |}.

Definition fileOfNone : DatFile := {| df_memsize := 4; rowCount := 0; rowLength := 0 |}.

(** Collaborators whose analyzer reports a string reference that passes
    the end of the row ([overrunStats]). *)
Definition overrunCollaborators : Collaborators :=
  Build_Collaborators (fun _ => overrunStats) Sample.calcRowNumLength byteViewType
    Sample.getHeaderLength Sample.validateImportedHeader
    Sample.selectColsByHeader Sample.createHeaderFromSelected
    Sample.clearColumnSelection Sample.cacheHeaderDataView Sample.readColumn.

(** The column of offset 4 of the fresh build of [sampleStats]. *)
Definition arrayColumn : StateColumn :=
  with_stats (overlay 0 sampleStats 4) (initColumn sampleSettings 4 arrayStat).

(** [sampleViewer] after [disableByteView] on its header: the header, the
    anchor column at index 4 and the viewer. *)
Definition collapsedHeader : Header := with_type (with_byteView None) sampleHeader.

Definition anchorColumn : StateColumn :=
  with_selected false (with_header (Some 0%nat) arrayColumn).

Definition collapsedViewer : Viewer := disabledAt 0 sampleHeader 4 arrayColumn sampleViewer.

(** ** The schema import: accumulated lengths *)

Section ImportLengths.
Context `{Collaborators}.

(** The sum of the decoded lengths of the entries of a schema. *)
Definition totalLength (memsize0 : Z) (serialized : list DatSerializedHeader) : Z :=
  foldr (fun e acc => (getHeaderLength e memsize0 + acc)%Z) 0%Z serialized.
End ImportLengths.

(** A gap of four bytes. *)
Definition entryGap : DatSerializedHeader :=
  {| ser_name := None; ser_length := Some 4%Z; ser_type := byteViewType |}.

(** ** [loadDat]

    [parsed.meta] is kept beside the [DatFile] record.  The alerts of
    [window.alert(e.message)] are returned as the list of the exceptions
    shown.  [overrideHeaders || parsed.meta.headers]: an array, also an
    empty one, is truthy. *)
Record DatFileMeta : Type := {
  meta_name : string;
  meta_headers : list DatSerializedHeader
}.

Section LoadDat.
Context `{Collaborators}.

Definition loadDat (settings : Settings) (parsed : DatFile) (meta : DatFileMeta)
    (overrideHeaders : option (list DatSerializedHeader)) (v : Viewer)
  : Result unit * Viewer * list Exn :=
  match _loadDat settings parsed v with
  | (Ok _, v1) =>
      let headers := match overrideHeaders with
                     | Some hs => hs
                     | None => meta_headers meta
                     end in
      match tryImportHeaders headers v1 with
      | (Ok _, v2) => (Ok tt, v2, [])
      | (Throw e, v2) => (Ok tt, v2, [e])
      end
  | (Throw e, v1) => (Throw e, v1, [e])
  end.
End LoadDat.

Definition sampleMeta : DatFileMeta :=
  {| meta_name := "Sample.dat"; meta_headers := [entryA; entryBad; entryB] |}.

(** ** Sample viewers for the further properties of [collectData] *)

(** Two headers without a name around a named one. *)
Definition unnamedHeaders : list Header := [emptyNameHeader; idHeader; foreignHeader].

(** An array key whose second row is [null], and a key that is not an
    array with a number among its entries. *)
Definition nullRowHeader : Header :=
  cached (Some "Refs") 8 (keyType true) [VArr [VKey 1 0]; VNull; VArr [VKey 3 0]].

Definition numberEntryHeader : Header :=
  cached (Some "Parent") 4 (keyType false) [VKey 7 0; VUndefined; VNum 5].

(** ** Methods that keep the number of state columns *)

Definition keepsColumnCount {A} (m : M A) : Prop :=
  forall v, length (columns (m v).2) = length (columns v).

(** The imported functions that [tryImportHeaders] calls with the columns
    or a header leave as many state columns as they find. *)
Definition collaboratorsKeepColumns `{Collaborators} : Prop :=
  (forall header, keepsColumnCount (selectColsByHeader header))
  /\ keepsColumnCount createHeaderFromSelected
  /\ keepsColumnCount clearColumnSelection
  /\ (forall header thisDatFile, keepsColumnCount (cacheHeaderDataView header thisDatFile)).

(** A header and its type descriptor up to the [byteView] member. *)
Definition sameButByteView (h1 h0 : Header) : Prop :=
  hdr_name h1 = hdr_name h0
  /\ hdr_offset h1 = hdr_offset h0
  /\ hdr_length h1 = hdr_length h0
  /\ cachedView h1 = cachedView h0
  /\ ty_ref (hdr_type h1) = ty_ref (hdr_type h0)
  /\ ty_boolean (hdr_type h1) = ty_boolean (hdr_type h0)
  /\ ty_decimal (hdr_type h1) = ty_decimal (hdr_type h0)
  /\ ty_integer (hdr_type h1) = ty_integer (hdr_type h0)
  /\ ty_key (hdr_type h1) = ty_key (hdr_type h0)
  /\ ty_string (hdr_type h1) = ty_string (hdr_type h0).

(** A schema of one named byte-view field of four bytes. *)
Definition entryBytes : DatSerializedHeader :=
  {| ser_name := Some "raw"; ser_length := Some 4%Z; ser_type := byteViewType |}.

(** * Properties *)

(** ** The result monads *)

Lemma rbind_Ok {A B} (m : Result A) (k : A -> Result B) (b : B) :
  rbind m k = Ok b -> exists a, m = Ok a /\ k a = Ok b.
Proof. destruct m as [a|e]; simpl; [eauto | discriminate]. Qed.

(** ** [stateColumns] *)

Section StateColumns.
Implicit Types (upd : Stats -> Stats) (cols : list StateColumn).

Lemma inRun_spec pos count j :
  inRun pos count j = true <-> (pos <= j < pos + count)%nat.
Proof.
  unfold inRun. rewrite andb_true_iff, Nat.leb_le, Nat.ltb_lt. tauto.
Qed.

Lemma inRun_zero pos j : inRun pos 0 j = false.
Proof.
  destruct (inRun pos 0 j) eqn:E; [|done].
  apply inRun_spec in E. lia.
Qed.

Lemma markRange_zero upd pos cols : markRange upd pos 0 cols = cols.
Proof.
  apply list_eq; intros j. unfold markRange.
  rewrite list_lookup_imap. destruct (cols !! j); simpl; [|done].
  by rewrite inRun_zero.
Qed.

Lemma length_markRange upd pos count cols :
  length (markRange upd pos count cols) = length cols.
Proof. apply length_imap. Qed.

Lemma lookup_markRange upd pos count cols j :
  markRange upd pos count cols !! j
  = (fun c => if inRun pos count j then with_stats upd c else c) <$> cols !! j.
Proof. apply list_lookup_imap. Qed.

(** An inner loop whose run ends within the array marks the run. *)
Lemma setFlags_ok upd pos count cols :
  (pos + count <= length cols)%nat ->
  setFlags upd pos count cols = Ok (markRange upd pos count cols).
Proof.
  revert pos cols. induction count as [|count IH]; intros pos cols Hlen; simpl.
  - by rewrite markRange_zero.
  - destruct (cols !! pos) as [c|] eqn:Hc.
    2:{ apply lookup_ge_None in Hc. lia. }
    rewrite IH by (rewrite length_insert; lia).
    f_equal. apply list_eq; intros j.
    rewrite !lookup_markRange.
    destruct (decide (j = pos)) as [->|Hne].
    + rewrite list_lookup_insert_eq by (apply lookup_lt_Some in Hc; lia).
      rewrite Hc. simpl.
      replace (inRun (S pos) count pos) with false.
      2:{ symmetry. apply not_true_is_false. rewrite inRun_spec. lia. }
      replace (inRun pos (S count) pos) with true; [done|].
      symmetry. apply inRun_spec. lia.
    + rewrite list_lookup_insert_ne by done.
      destruct (cols !! j) as [c'|]; simpl; [|done].
      replace (inRun (S pos) count j) with (inRun pos (S count) j); [done|].
      apply eq_true_iff_eq. rewrite !inRun_spec. lia.
Qed.

(** An inner loop whose run passes the end of the array throws. *)
Lemma setFlags_throw upd pos count cols :
  (length cols < pos + count)%nat -> (0 < count)%nat ->
  setFlags upd pos count cols = Throw TypeError.
Proof.
  revert pos cols. induction count as [|count IH]; intros pos cols Hlen Hpos; [lia|].
  simpl. destruct (cols !! pos) as [c|] eqn:Hc; [|done].
  apply lookup_lt_Some in Hc.
  apply IH; [rewrite length_insert|]; lia.
Qed.

Lemma setFlags_guard upd (flag : bool) idx n cols :
  (if flag then setFlags upd idx (Z.to_nat n) cols else Ok cols)
  = setFlags upd idx (runOf flag n) cols.
Proof. by destruct flag. Qed.

Lemma fitsAt_runs len idx stat :
  (idx <= len)%nat -> fitsAt len idx stat ->
  (idx + runOf (refString stat) (memsize stat) <= len)%nat
  /\ (idx + runOf (refArray stat) (memsize stat * 2) <= len)%nat
  /\ (idx + runOf (nullableMemsize stat) (memsize stat) <= len)%nat.
Proof.
  intros Hidx (Hs & Ha & Hn). unfold runOf.
  repeat split.
  - destruct (refString stat); [specialize (Hs eq_refl)|]; lia.
  - destruct (refArray stat); [specialize (Ha eq_refl)|]; lia.
  - destruct (nullableMemsize stat); [specialize (Hn eq_refl)|]; lia.
Qed.

Lemma runs_fitsAt len idx stat :
  (idx + runOf (refString stat) (memsize stat) <= len)%nat ->
  (idx + runOf (refArray stat) (memsize stat * 2) <= len)%nat ->
  (idx + runOf (nullableMemsize stat) (memsize stat) <= len)%nat ->
  fitsAt len idx stat.
Proof.
  unfold runOf, fitsAt. intros Hs Ha Hn.
  repeat split; intros E; rewrite E in *; lia.
Qed.

Lemma with_stats_flagsAt idx stat j c :
  (if inRun idx (runOf (nullableMemsize stat) (memsize stat)) j
   then with_stats mark_nullable else id)
    ((if inRun idx (runOf (refArray stat) (memsize stat * 2)) j
      then with_stats mark_array else id)
       ((if inRun idx (runOf (refString stat) (memsize stat)) j
         then with_stats mark_string else id) c))
  = with_stats (flagsAt idx stat j) c.
Proof.
  destruct c as [o n99 n100 sel hd ds [s a b nl bm]].
  unfold flagsAt, with_stats, mark_string, mark_array, mark_nullable; simpl.
  destruct (inRun idx (runOf (nullableMemsize stat) (memsize stat)) j),
           (inRun idx (runOf (refArray stat) (memsize stat * 2)) j),
           (inRun idx (runOf (refString stat) (memsize stat)) j);
    simpl; rewrite ?orb_true_r, ?orb_false_r; reflexivity.
Qed.

(** One iteration of the outer loop, when its runs fit. *)
Lemma propagate_ok idx stat cols :
  (idx <= length cols)%nat -> fitsAt (length cols) idx stat ->
  propagate idx stat cols
  = Ok (imap (fun j c => with_stats (flagsAt idx stat j) c) cols).
Proof.
  intros Hidx Hfit. destruct (fitsAt_runs _ _ _ Hidx Hfit) as (Hs & Ha & Hn).
  unfold propagate. rewrite setFlags_guard.
  rewrite setFlags_ok by done. cbn [rbind]. rewrite setFlags_guard.
  rewrite setFlags_ok by (rewrite length_markRange; done).
  cbn [rbind]. rewrite setFlags_guard.
  rewrite setFlags_ok by (rewrite !length_markRange; done).
  f_equal. apply list_eq; intros j.
  rewrite !lookup_markRange, list_lookup_imap.
  destruct (cols !! j) as [c|]; simpl; [|done].
  f_equal. rewrite <- with_stats_flagsAt.
  by destruct (inRun idx (runOf (nullableMemsize stat) (memsize stat)) j),
              (inRun idx (runOf (refArray stat) (memsize stat * 2)) j),
              (inRun idx (runOf (refString stat) (memsize stat)) j).
Qed.

(** One iteration of the outer loop, when one of its runs does not fit. *)
Lemma propagate_throw idx stat cols :
  (idx <= length cols)%nat -> ~ fitsAt (length cols) idx stat ->
  propagate idx stat cols = Throw TypeError.
Proof.
  intros Hidx Hfit. unfold propagate. rewrite setFlags_guard.
  destruct (decide (idx + runOf (refString stat) (memsize stat) <= length cols)%nat)
    as [Hs|Hs].
  2:{ rewrite setFlags_throw; [reflexivity|lia|lia]. }
  rewrite setFlags_ok by done. cbn [rbind]. rewrite setFlags_guard.
  destruct (decide (idx + runOf (refArray stat) (memsize stat * 2) <= length cols)%nat)
    as [Ha|Ha].
  2:{ rewrite setFlags_throw; [reflexivity|rewrite length_markRange; lia|lia]. }
  rewrite setFlags_ok by (rewrite length_markRange; done).
  cbn [rbind]. rewrite setFlags_guard.
  destruct (decide (idx + runOf (nullableMemsize stat) (memsize stat) <= length cols)%nat)
    as [Hn|Hn].
  { exfalso. apply Hfit. by apply runs_fitsAt. }
  rewrite setFlags_throw; [done|rewrite !length_markRange; lia|lia].
Qed.

Lemma with_stats_id c : with_stats (fun s => s) c = c.
Proof. by destruct c. Qed.

Lemma with_stats_compose f g c :
  with_stats f (with_stats g c) = with_stats (fun s => f (g s)) c.
Proof. by destruct c. Qed.

(** The outer loop, when every remaining construct fits. *)
Lemma propagateFrom_ok idx rest cols :
  (idx + length rest <= length cols)%nat ->
  (forall k stat, rest !! k = Some stat -> fitsAt (length cols) (idx + k) stat) ->
  propagateFrom idx rest cols
  = Ok (imap (fun j c => with_stats (overlay idx rest j) c) cols).
Proof.
  revert idx cols. induction rest as [|stat rest IH]; intros idx cols Hlen Hfit.
  - simpl. f_equal. apply list_eq; intros j. rewrite list_lookup_imap.
    destruct (cols !! j); simpl; [|done]. by rewrite with_stats_id.
  - simpl in Hlen. cbn [propagateFrom].
    rewrite propagate_ok; [|lia|].
    2:{ specialize (Hfit 0%nat stat eq_refl). by rewrite Nat.add_0_r in Hfit. }
    cbn [rbind]. rewrite IH.
    + f_equal. apply list_eq; intros j. rewrite !list_lookup_imap.
      destruct (cols !! j); simpl; [|done]. by rewrite with_stats_compose.
    + rewrite length_imap. lia.
    + intros k stat' Hk. rewrite length_imap.
      replace (S idx + k)%nat with (idx + S k)%nat by lia. by apply Hfit.
Qed.

(** The outer loop returns only when every remaining construct fits. *)
Lemma propagateFrom_Ok_fits idx rest cols cols' :
  (idx + length rest <= length cols)%nat ->
  propagateFrom idx rest cols = Ok cols' ->
  forall k stat, rest !! k = Some stat -> fitsAt (length cols) (idx + k) stat.
Proof.
  revert idx cols. induction rest as [|stat rest IH]; intros idx cols Hlen Hok k stat' Hk.
  - done.
  - simpl in Hlen. cbn [propagateFrom] in Hok.
    destruct (decide (fitsAt (length cols) idx stat)) as [Hfit|Hfit].
    2:{ rewrite propagate_throw in Hok by (done || lia). discriminate. }
    rewrite propagate_ok in Hok by (done || lia). cbn [rbind] in Hok.
    destruct k as [|k]; simpl in Hk.
    + injection Hk as <-. by rewrite Nat.add_0_r.
    + replace (idx + S k)%nat with (S idx + k)%nat by lia.
      eapply IH in Hok; [|rewrite length_imap; lia|exact Hk].
      by rewrite length_imap in Hok.
Qed.

Lemma stateColumns_ok settings columnStats :
  fits columnStats ->
  stateColumns settings columnStats = Ok (builtColumns settings columnStats).
Proof.
  intros Hfit. unfold stateColumns.
  rewrite propagateFrom_ok.
  - f_equal. apply list_eq; intros j. unfold builtColumns.
    rewrite !list_lookup_imap. by destruct (columnStats !! j).
  - rewrite length_imap. lia.
  - intros k stat Hk. rewrite length_imap. by apply Hfit.
Qed.

Lemma stateColumns_Ok_fits settings columnStats cols :
  stateColumns settings columnStats = Ok cols -> fits columnStats.
Proof.
  unfold stateColumns. intros Hok k stat Hk.
  eapply propagateFrom_Ok_fits in Hok; [|rewrite length_imap; simpl; lia|exact Hk].
  by rewrite length_imap in Hok.
Qed.

Lemma stateColumns_Ok_built settings columnStats cols :
  stateColumns settings columnStats = Ok cols ->
  cols = builtColumns settings columnStats.
Proof.
  intros Hok. pose proof (stateColumns_Ok_fits _ _ _ Hok) as Hfit.
  rewrite stateColumns_ok in Hok by done. congruence.
Qed.

Lemma length_builtColumns settings columnStats :
  length (builtColumns settings columnStats) = length columnStats.
Proof. apply length_imap. Qed.

Lemma lookup_builtColumns settings columnStats j :
  builtColumns settings columnStats !! j
  = (fun stat => with_stats (overlay 0 columnStats j) (initColumn settings j stat))
      <$> columnStats !! j.
Proof. apply list_lookup_imap. Qed.

Lemma builtColumns_offset settings columnStats j c :
  builtColumns settings columnStats !! j = Some c -> col_offset c = Z.of_nat j.
Proof.
  rewrite lookup_builtColumns. destruct (columnStats !! j); simpl; [|done].
  by intros [= <-].
Qed.

(** The two cases of the induction on the remaining statistics, the same
    for the three flags of the overlay. *)
Ltac overlay_nil :=
  split; [by left | intros [?|(? & ? & ? & _)]; done].

Ltac overlay_cons IH stat flag :=
  rewrite IH; simpl; rewrite orb_true_iff, inRun_spec; unfold runOf; split;
  [ intros [[Hs|Hr]|(k & stat' & Hk & Hf & Hr)];
    [ by left
    | right; exists 0%nat, stat; destruct flag; [|lia];
      split; [done|]; split; [done|]; lia
    | right; exists (S k), stat'; split; [done|]; split; [done|]; lia ]
  | intros [Hs|(k & stat' & Hk & Hf & Hr)]; [by left; left|];
    destruct k as [|k]; simpl in Hk;
    [ injection Hk as <-; left; right; rewrite Hf; lia
    | right; exists k, stat'; split; [done|]; split; [done|]; lia ] ].

(** The flags of the overlay: a flag is set exactly where it was set
    before or where a flagged run covers the column. *)
Lemma overlay_string idx rest j s :
  st_string (overlay idx rest j s) = true <->
  st_string s = true
  \/ exists k stat, rest !! k = Some stat /\ refString stat = true
       /\ (idx + k <= j < idx + k + Z.to_nat (memsize stat))%nat.
Proof.
  revert idx s. induction rest as [|stat rest IH]; intros idx s; simpl;
    [overlay_nil | overlay_cons IH stat (refString stat)].
Qed.

Lemma overlay_array idx rest j s :
  st_array (overlay idx rest j s) = true <->
  st_array s = true
  \/ exists k stat, rest !! k = Some stat /\ refArray stat = true
       /\ (idx + k <= j < idx + k + Z.to_nat (memsize stat * 2))%nat.
Proof.
  revert idx s. induction rest as [|stat rest IH]; intros idx s; simpl;
    [overlay_nil | overlay_cons IH stat (refArray stat)].
Qed.

Lemma overlay_nullable idx rest j s :
  st_nullable (overlay idx rest j s) = true <->
  st_nullable s = true
  \/ exists k stat, rest !! k = Some stat /\ nullableMemsize stat = true
       /\ (idx + k <= j < idx + k + Z.to_nat (memsize stat))%nat.
Proof.
  revert idx s. induction rest as [|stat rest IH]; intros idx s; simpl;
    [overlay_nil | overlay_cons IH stat (nullableMemsize stat)].
Qed.
End StateColumns.

(** C7. [stateColumns] never indexes past the array it builds: on column
    statistics in which every flagged construct ends within the array
    ([fits]), the build returns; it returns the closed form
    [builtColumns], and it returns on no other input. *)
Theorem stateColumns_in_bounds (settings : Settings) (columnStats : list ColumnStats) :
  fits columnStats ->
  stateColumns settings columnStats = Ok (builtColumns settings columnStats)
  /\ isOk (stateColumns settings columnStats) = true.
Proof.
  intros Hfit. rewrite stateColumns_ok by done. done.
Qed.

(** The converse of C7: a construct that passes the end of the array makes
    the build throw. *)
Lemma stateColumns_overrun (settings : Settings) (columnStats : list ColumnStats) :
  ~ fits columnStats -> isOk (stateColumns settings columnStats) = false.
Proof.
  intros Hfit. destruct (stateColumns settings columnStats) as [cols|e] eqn:E; [|done].
  exfalso. apply Hfit. eapply stateColumns_Ok_fits, E.
Qed.

(** C5, as amended. On column statistics in which every flagged construct
    ends within the array, [stateColumns] returns exactly one column per
    statistics entry, the column at index [j] having offset [j]; and for
    each offset [i] flagged [refString], [stats.string] is true on the
    [memsize] columns from [i] on; likewise [stats.array] on the
    [2 * memsize] columns of a [refArray] and [stats.nullable] on the
    [memsize] columns of a [nullableMemsize]. *)
Theorem stateColumns_runs (settings : Settings) (columnStats : list ColumnStats) :
  fits columnStats ->
  exists cols,
    stateColumns settings columnStats = Ok cols
    /\ length cols = length columnStats
    /\ (forall j c, cols !! j = Some c -> col_offset c = Z.of_nat j)
    /\ forall i stat, columnStats !! i = Some stat ->
         (refString stat = true ->
          forall k, (k < Z.to_nat (memsize stat))%nat ->
            exists c, cols !! (i + k)%nat = Some c /\ st_string (stats c) = true)
         /\ (refArray stat = true ->
             forall k, (k < Z.to_nat (2 * memsize stat))%nat ->
               exists c, cols !! (i + k)%nat = Some c /\ st_array (stats c) = true)
         /\ (nullableMemsize stat = true ->
             forall k, (k < Z.to_nat (memsize stat))%nat ->
               exists c, cols !! (i + k)%nat = Some c /\ st_nullable (stats c) = true).
Proof.
  intros Hfit. exists (builtColumns settings columnStats).
  split; [by apply stateColumns_ok|].
  split; [apply length_builtColumns|].
  split; [apply builtColumns_offset|].
  intros i stat Hi. destruct (Hfit i stat Hi) as (Hs & Ha & Hn).
  repeat split; intros Hflag k Hk.
  - specialize (Hs Hflag).
    destruct (lookup_lt_is_Some_2 columnStats (i + k)) as [stat' Hstat']; [lia|].
    rewrite lookup_builtColumns, Hstat'. simpl. eexists; split; [done|]. simpl.
    apply overlay_string. right. exists i, stat. repeat split; [done..|lia|lia].
  - specialize (Ha Hflag).
    destruct (lookup_lt_is_Some_2 columnStats (i + k)) as [stat' Hstat']; [lia|].
    rewrite lookup_builtColumns, Hstat'. simpl. eexists; split; [done|]. simpl.
    apply overlay_array. right. exists i, stat.
    replace (memsize stat * 2)%Z with (2 * memsize stat)%Z by lia.
    repeat split; [done..|lia|lia].
  - specialize (Hn Hflag).
    destruct (lookup_lt_is_Some_2 columnStats (i + k)) as [stat' Hstat']; [lia|].
    rewrite lookup_builtColumns, Hstat'. simpl. eexists; split; [done|]. simpl.
    apply overlay_nullable. right. exists i, stat. repeat split; [done..|lia|lia].
Qed.

Example stateColumns_sample_flags :
  (fun cols => map (fun c => (col_offset c, st_string (stats c), st_array (stats c),
                              st_nullable (stats c), st_bMax (stats c), colNum99 c))
                   cols) <$> (match stateColumns sampleSettings sampleStats with
                              | Ok cols => Some cols | Throw _ => None end)
  = Some [(0, true, false, true, "0a", "00"); (1, true, false, true, "ff", "01");
          (2, true, false, true, "ff", "02"); (3, true, false, true, "ff", "03");
          (4, false, true, false, "03", "04"); (5, false, true, false, "ff", "05");
          (6, false, true, false, "ff", "06"); (7, false, true, false, "ff", "07");
          (8, false, true, false, "ff", "08"); (9, false, true, false, "ff", "09");
          (10, false, true, false, "ff", "10"); (11, false, true, false, "ff", "11")]%Z.
Proof. vm_compute. reflexivity. Qed.

Lemma stateColumns_in_bounds_witness :
  stateColumns sampleSettings sampleStats = Ok (builtColumns sampleSettings sampleStats)
  /\ isOk (stateColumns sampleSettings sampleStats) = true.
Proof.
  apply (stateColumns_in_bounds sampleSettings sampleStats).
  apply (bool_decide_unpack _). vm_compute. exact I.
Defined.

Lemma stateColumns_runs_witness :
  exists cols,
    stateColumns sampleSettings sampleStats = Ok cols
    /\ length cols = length sampleStats
    /\ (forall j c, cols !! j = Some c -> col_offset c = Z.of_nat j)
    /\ forall i stat, sampleStats !! i = Some stat ->
         (refString stat = true ->
          forall k, (k < Z.to_nat (memsize stat))%nat ->
            exists c, cols !! (i + k)%nat = Some c /\ st_string (stats c) = true)
         /\ (refArray stat = true ->
             forall k, (k < Z.to_nat (2 * memsize stat))%nat ->
               exists c, cols !! (i + k)%nat = Some c /\ st_array (stats c) = true)
         /\ (nullableMemsize stat = true ->
             forall k, (k < Z.to_nat (memsize stat))%nat ->
               exists c, cols !! (i + k)%nat = Some c /\ st_nullable (stats c) = true).
Proof.
  apply (stateColumns_runs sampleSettings sampleStats).
  apply (bool_decide_unpack _). vm_compute. exact I.
Defined.

(** C5 as stated fails: on [overrunStats] the build throws instead of
    returning one column per statistics entry. *)
Lemma stateColumns_overrun_throws :
  stateColumns sampleSettings overrunStats = Throw TypeError
  /\ ~ exists cols, stateColumns sampleSettings overrunStats = Ok cols
                    /\ length cols = length overrunStats.
Proof.
  split; [vm_compute; reflexivity|].
  intros (cols & Hok & _). vm_compute in Hok. discriminate.
Qed.

(** ** Array primitives *)

Section Arrays.
Context {A : Type}.
Implicit Types (p : A -> bool) (l : list A).

Lemma findIndexFrom_first p l s i x :
  l !! i = Some x -> p x = true ->
  (forall j y, (j < i)%nat -> l !! j = Some y -> p y = false) ->
  findIndexFrom p s l = (s + Z.of_nat i)%Z.
Proof.
  revert s i. induction l as [|a l IH]; intros s i Hi Hp Hfirst; [done|].
  destruct i as [|i]; simpl in *.
  - injection Hi as ->. rewrite Hp. lia.
  - rewrite (Hfirst 0%nat a) by (done || lia).
    rewrite (IH (s + 1)%Z i); [lia|done..|].
    intros j y Hj Hy. apply (Hfirst (S j)); [lia|done].
Qed.

Lemma findIndex_first p l i x :
  l !! i = Some x -> p x = true ->
  (forall j y, (j < i)%nat -> l !! j = Some y -> p y = false) ->
  findIndex p l = Z.of_nat i.
Proof. intros. unfold findIndex. by erewrite findIndexFrom_first. Qed.


(** [findIndex] returns [-1] or the index of an element. *)
Lemma findIndexFrom_range p l s :
  findIndexFrom p s l = (-1)%Z
  \/ (s <= findIndexFrom p s l < s + Z.of_nat (length l))%Z.
Proof.
  revert s. induction l as [|a l IH]; intros s; simpl; [by left|].
  destruct (p a); [right; lia|].
  destruct (IH (s + 1)%Z) as [->|?]; [by left|right; lia].
Qed.

Lemma findIndex_found p l :
  Exists (fun x => p x = true) l ->
  exists i x, findIndex p l = Z.of_nat i /\ l !! i = Some x /\ p x = true
              /\ forall j y, (j < i)%nat -> l !! j = Some y -> p y = false.
Proof.
  induction l as [|a l IH]; intros Hex; [by inversion Hex|].
  destruct (p a) eqn:Hp.
  - exists 0%nat, a. unfold findIndex. simpl. rewrite Hp.
    repeat split; [done..|]. intros; lia.
  - inversion Hex as [? ? Ha|? ? Hl]; subst; [congruence|].
    destruct (IH Hl) as (i & x & Hi & Hx & Hpx & Hfirst).
    exists (S i), x. split.
    + apply findIndex_first with x; [done..|].
      intros [|j] y Hj Hy; simpl in Hy; [congruence|]. apply (Hfirst j); [lia|done].
    + repeat split; [done..|].
      intros [|j] y Hj Hy; simpl in Hy; [congruence|]. apply (Hfirst j); [lia|done].
Qed.

Lemma at_index_nat l (i : nat) : at_index l (Z.of_nat i) = l !! i.
Proof.
  unfold at_index. destruct (Z.ltb_spec (Z.of_nat i) 0); [lia|].
  by rewrite Nat2Z.id.
Qed.

Lemma at_index_Some l (z : Z) x :
  at_index l z = Some x -> (0 <= z < Z.of_nat (length l))%Z /\ l !! Z.to_nat z = Some x.
Proof.
  unfold at_index. destruct (Z.ltb_spec z 0); [done|]. intros Hx.
  split; [|done]. apply lookup_lt_Some in Hx. lia.
Qed.

(** Removing [count] elements after index [i]. *)
Lemma splice_remove l (i : nat) (count : Z) :
  (i < length l)%nat ->
  splice l (Z.of_nat i + 1) count []
  = take (S i) l ++ drop (S i + Z.to_nat count) l.
Proof.
  intros Hi. unfold splice, relIndex.
  destruct (Z.ltb_spec (Z.of_nat i + 1) 0); [lia|]. simpl.
  replace (Z.to_nat (Z.min (Z.of_nat i + 1) (Z.of_nat (length l)))) with (S i) by lia.
  f_equal.
  destruct (decide (S i + Z.to_nat count <= length l)%nat).
  - f_equal. lia.
  - rewrite !drop_ge; [done|lia|lia].
Qed.

(** Inserting [items] after index [i]. *)
Lemma splice_insert l (i : nat) (items : list A) :
  (i < length l)%nat ->
  splice l (Z.of_nat i + 1) 0 items = take (S i) l ++ items ++ drop (S i) l.
Proof.
  intros Hi. unfold splice, relIndex.
  destruct (Z.ltb_spec (Z.of_nat i + 1) 0); [lia|]. simpl.
  replace (Z.to_nat (Z.min (Z.of_nat i + 1) (Z.of_nat (length l)))) with (S i) by lia.
  do 3 f_equal. lia.
Qed.

(** A slice that lies within the array. *)
Lemma slice_within l (a b : nat) :
  (a <= b <= length l)%nat ->
  slice l (Z.of_nat a) (Z.of_nat b) = take (b - a) (drop a l).
Proof.
  intros Hab. unfold slice, relIndex.
  destruct (Z.ltb_spec (Z.of_nat a) 0); [lia|].
  destruct (Z.ltb_spec (Z.of_nat b) 0); [lia|].
  f_equal; [lia|f_equal; lia].
Qed.

(** [splice] never removes more than it is asked to and [slice] never
    returns more than the array holds. *)
Lemma length_splice_ge l start items :
  (length l <= length (splice l start 0 items))%nat.
Proof.
  unfold splice. rewrite !length_app, length_take, length_drop.
  set (s := relIndex (Z.of_nat (length l)) start).
  assert (0 <= s <= Z.of_nat (length l))%Z.
  { unfold s, relIndex. destruct (Z.ltb_spec start 0); lia. }
  lia.
Qed.

Lemma update_index_take_drop (f : A -> A) l (i : nat) x rest :
  l !! i = Some x ->
  update_index f (take (S i) l ++ rest) (Z.of_nat i) = take i l ++ f x :: rest.
Proof.
  intros Hi. unfold update_index. rewrite Nat2Z.id.
  rewrite (take_S_r l i x) by done.
  rewrite <- app_assoc. simpl.
  assert (length (take i l) = i) as Hlen.
  { rewrite length_take. apply lookup_lt_Some in Hi. lia. }
  rewrite <- (Nat.add_0_r i) at 1. rewrite <- Hlen at 1.
  by rewrite alter_app_r.
Qed.
End Arrays.

(** ** [disableByteView] and [enableByteView] *)

Section Toggle.
Implicit Types (v : Viewer) (h : Header) (header : href) (c : StateColumn).

Lemma deref_updated header h (f : Header -> Header) v :
  vw_heap v !! header = Some h ->
  vw_heap (with_heap (fun heap => <[header := f h]> heap) v) !! header = Some (f h).
Proof.
  intros Hh. simpl. apply list_lookup_insert_eq. by apply lookup_lt_Some in Hh.
Qed.

(** The header's offset is found at index [i]: the call returns and
    leaves [disabledAt]. *)
Lemma disableByteView_found header h v i c :
  vw_heap v !! header = Some h ->
  findIndex (fun col => (col_offset col =? hdr_offset h)%Z) (columns v) = Z.of_nat i ->
  columns v !! i = Some c ->
  disableByteView header v = (Ok tt, disabledAt header h i c v).
Proof.
  intros Hh Hfind Hc.
  pose proof (lookup_lt_Some _ _ _ Hc) as Hi.
  unfold disableByteView, updateHeader, bind, deref, modify, gets.
  rewrite Hh. rewrite (deref_updated _ _ _ _ Hh). cbn [hdr_offset hdr_length with_type].
  cbn [columns with_heap with_columns]. rewrite Hfind.
  rewrite splice_remove by done.
  rewrite at_index_nat.
  rewrite lookup_app_l by (rewrite length_take; lia).
  rewrite lookup_take_lt by lia. rewrite Hc.
  unfold disabledAt, with_columns, with_heap.
  cbn [columns headers datFile columnStats rowNumberLength editHeader rowSorting vw_heap].
  rewrite splice_remove by done.
  rewrite (update_index_take_drop _ _ _ c) by done.
  replace (S i + Z.to_nat (hdr_length h - 1))%nat
    with (i + Z.to_nat (Z.max (hdr_length h) 1))%nat by lia.
  reflexivity.
Qed.

Lemma enableByteView_found settings header h v i c fresh :
  vw_heap v !! header = Some h ->
  findIndex (fun col => (col_offset col =? hdr_offset h)%Z) (columns v) = Z.of_nat i ->
  columns v !! i = Some c ->
  stateColumns settings (columnStats v) = Ok fresh ->
  enableByteView settings header v = (Ok tt, enabledAt fresh header h i c v).
Proof.
  intros Hh Hfind Hc Hfresh.
  pose proof (lookup_lt_Some _ _ _ Hc) as Hi.
  unfold enableByteView, updateHeader, bind, deref, modify, gets, lift.
  rewrite Hh. rewrite (deref_updated _ _ _ _ Hh). cbn [hdr_offset hdr_length with_type].
  cbn [columns columnStats with_heap with_columns]. rewrite Hfind, Hfresh.
  rewrite splice_insert by done.
  rewrite at_index_nat.
  rewrite lookup_app_l by (rewrite length_take; lia).
  rewrite lookup_take_lt by lia. rewrite Hc.
  unfold enabledAt, with_columns, with_heap.
  cbn [columns headers datFile columnStats rowNumberLength editHeader rowSorting vw_heap].
  rewrite splice_insert by done.
  by rewrite (update_index_take_drop _ _ _ c) by done.
Qed.

(** [enableByteView] never shortens the column array, whether it returns
    or throws. *)
Lemma enableByteView_length settings header v :
  (length (columns v) <= length (columns (enableByteView settings header v).2))%nat.
Proof.
  unfold enableByteView, updateHeader, bind, deref, modify, gets, lift.
  destruct (vw_heap v !! header) as [h|] eqn:Hh; [|done].
  rewrite (deref_updated _ _ _ _ Hh).
  cbn [columns columnStats with_heap with_columns].
  destruct (stateColumns settings (columnStats v)) as [fresh|e]; [|done].
  match goal with
  | |- context [at_index ?l ?z] => destruct (at_index l z)
  end; unfold throw, with_columns; cbn [snd columns];
    unfold update_index; rewrite ?length_alter; apply length_splice_ge.
Qed.

(** A header built from the selection at [i]: the columns it covers. *)
Lemma selectionAt_lookup cols i h m :
  selectionAt cols i h -> (m < Z.to_nat (hdr_length h))%nat ->
  exists c, cols !! (i + m)%nat = Some c /\ col_offset c = (hdr_offset h + Z.of_nat m)%Z.
Proof.
  intros [Hlen Hsel] Hm.
  assert ((col_offset <$> take (Z.to_nat (hdr_length h)) (drop i cols)) !! m
          = Some (hdr_offset h + Z.of_nat m)%Z) as Hlook.
  { rewrite Hsel. apply lookup_seqZ_lt. lia. }
  rewrite list_lookup_fmap, lookup_take_lt, lookup_drop in Hlook by done.
  destruct (cols !! (i + m)%nat) as [c|]; simpl in Hlook; [|done].
  exists c. split; [done|]. congruence.
Qed.

(** With distinct offsets, the selection's first column is the one
    [findIndex] returns. *)
Lemma selectionAt_findIndex cols i h :
  NoDup (col_offset <$> cols) -> selectionAt cols i h ->
  exists c, cols !! i = Some c /\ col_offset c = hdr_offset h
    /\ findIndex (fun col => (col_offset col =? hdr_offset h)%Z) cols = Z.of_nat i.
Proof.
  intros Hnd Hsel.
  destruct (selectionAt_lookup cols i h 0 Hsel) as (c & Hc & Hoff);
    [destruct Hsel; lia|].
  rewrite Nat.add_0_r in Hc. rewrite Z.add_0_r in Hoff.
  exists c. split; [done|]. split; [done|].
  apply findIndex_first with c; [done|by apply Z.eqb_eq|].
  intros j y Hj Hy. apply Z.eqb_neq. intros Heq.
  assert (j = i); [|lia].
  apply (NoDup_lookup (col_offset <$> cols) j i (hdr_offset h) Hnd);
    rewrite list_lookup_fmap; [rewrite Hy|rewrite Hc]; simpl; congruence.
Qed.
End Toggle.

(** C1. Let the columns of the viewer come from the fresh build of its
    statistics ([columns_wf]) and let [h] be a header built from the
    contiguous selection of the columns at [i].  Then [disableByteView]
    followed by [enableByteView] on [h] both return, and the array they
    leave shows the same offsets and the same statistics, position by
    position, as the array before. *)
Theorem disable_enable_restores (settings : Settings) (header : href) (h : Header)
    (v : Viewer) (fresh : list StateColumn) (i : nat) :
  vw_heap v !! header = Some h ->
  stateColumns settings (columnStats v) = Ok fresh ->
  columns_wf fresh (columns v) ->
  selectionAt (columns v) i h ->
  exists v1 v2,
    disableByteView header v = (Ok tt, v1)
    /\ enableByteView settings header v1 = (Ok tt, v2)
    /\ columnView <$> columns v2 = columnView <$> columns v.
Proof.
  intros Hh Hfresh [Hnd Hwf] Hsel.
  destruct (selectionAt_findIndex _ _ _ Hnd Hsel) as (c & Hc & Hoff & Hfind).
  pose proof Hsel as [Hlen Hrun].
  set (len := Z.to_nat (hdr_length h)).
  set (c' := with_selected false (with_header (Some header) c)).
  set (h' := with_type (with_byteView None) h).
  assert (i + len <= length (columns v))%nat as Hfit.
  { destruct (selectionAt_lookup _ _ _ (len - 1) Hsel) as (cl & Hcl & _);
      [unfold len; lia|]. apply lookup_lt_Some in Hcl. lia. }
  assert (length (take i (columns v)) = i) as Htake by (rewrite length_take; lia).
  exists (disabledAt header h i c v).
  eexists. split; [by apply disableByteView_found|].
  assert (columns (disabledAt header h i c v)
          = take i (columns v) ++ c' :: drop (i + len) (columns v)) as Hcols1.
  { unfold disabledAt. cbn. rewrite Z.max_l by lia. done. }
  assert (columns (disabledAt header h i c v) !! i = Some c') as Hc1.
  { rewrite Hcols1, lookup_app_r by lia. by rewrite Htake, Nat.sub_diag. }
  split.
  - apply enableByteView_found with (h := h') (i := i) (c := c') (fresh := fresh).
    + exact (deref_updated header h (with_type (with_byteView None)) v Hh).
    + change (hdr_offset h') with (hdr_offset h).
      apply findIndex_first with c'; [done|by apply Z.eqb_eq|].
      intros j y Hj. rewrite Hcols1, lookup_app_l by lia.
      rewrite lookup_take_lt by lia. intros Hy. apply Z.eqb_neq. intros Heq.
      assert (j = i); [|lia].
      apply (NoDup_lookup (col_offset <$> columns v) j i (hdr_offset h) Hnd);
        rewrite list_lookup_fmap; [rewrite Hy|rewrite Hc]; simpl; congruence.
    + done.
    + done.
  - unfold enabledAt. cbn [columns with_columns with_heap].
    fold (columns (disabledAt header h i c v)). rewrite Hcols1.
    rewrite take_app_length' by done.
    rewrite drop_app_ge by lia. rewrite Htake.
    replace (S i - i)%nat with 1%nat by lia. cbn [drop].
    cbn [hdr_offset hdr_length h' with_type].
    (* the fresh columns of the header's byte range are within [fresh] *)
    rewrite Forall_lookup in Hwf.
    pose proof (Hwf _ _ Hc) as Hc0. rewrite Hoff in Hc0.
    destruct (at_index fresh (hdr_offset h)) as [c0|] eqn:Hat0; [|done].
    apply at_index_Some in Hat0 as [Hoff0 _].
    destruct (selectionAt_lookup _ _ _ (len - 1) Hsel) as (cl & Hcl & Hoffl);
      [unfold len; lia|].
    pose proof (Hwf _ _ Hcl) as Hcl0. rewrite Hoffl in Hcl0.
    destruct (at_index fresh (hdr_offset h + Z.of_nat (len - 1))) as [cl0|] eqn:Hatl;
      [|done].
    apply at_index_Some in Hatl as [Hoffl0 _].
    set (o := Z.to_nat (hdr_offset h)).
    replace (hdr_offset h + 1)%Z with (Z.of_nat (S o)) by lia.
    replace (hdr_offset h + hdr_length h)%Z with (Z.of_nat (o + len)) by lia.
    rewrite slice_within by lia.
    (* the array before, cut at the same places *)
    rewrite <- (take_drop_middle (columns v) i c Hc) at 3.
    rewrite <- (take_drop (len - 1) (drop (S i) (columns v))) at 1.
    rewrite drop_drop. replace (S i + (len - 1))%nat with (i + len)%nat by lia.
    rewrite !fmap_app, !fmap_cons, !fmap_app. f_equal. f_equal.
    f_equal; [|rewrite drop_drop; do 2 f_equal; lia].
    apply list_eq; intros k. rewrite !list_lookup_fmap.
    destruct (decide (k < len - 1)%nat) as [Hk|Hk].
    2:{ rewrite !lookup_take_ge by lia. done. }
    rewrite !lookup_take_lt by lia. rewrite !lookup_drop.
    destruct (selectionAt_lookup _ _ _ (S k) Hsel) as (ck & Hck & Hoffk);
      [unfold len in *; lia|].
    replace (S i + k)%nat with (i + S k)%nat by lia. rewrite Hck. simpl.
    pose proof (Hwf _ _ Hck) as Hck0. rewrite Hoffk in Hck0.
    replace (hdr_offset h + Z.of_nat (S k))%Z with (Z.of_nat (S o + k)) in Hck0 by lia.
    rewrite at_index_nat in Hck0.
    exact Hck0.
Qed.

(** The invariant [columns_wf] holds of a fresh build, and depends only on
    what the columns show; so it holds again after a [disableByteView]
    followed by [enableByteView]. *)
Lemma columns_wf_fresh (settings : Settings) (columnStats : list ColumnStats)
    (fresh : list StateColumn) :
  stateColumns settings columnStats = Ok fresh -> columns_wf fresh fresh.
Proof.
  intros Hok. apply stateColumns_Ok_built in Hok. subst fresh. split.
  - apply NoDup_alt. intros j1 j2 z. rewrite !list_lookup_fmap.
    destruct (builtColumns settings columnStats !! j1) as [c1|] eqn:H1; [|done].
    destruct (builtColumns settings columnStats !! j2) as [c2|] eqn:H2; [|done].
    apply builtColumns_offset in H1, H2. simpl. intros [= <-] [= Heq]. lia.
  - apply Forall_lookup. intros j c Hc.
    rewrite (builtColumns_offset _ _ _ _ Hc), at_index_nat, Hc. done.
Qed.

Lemma columns_wf_view (fresh cols1 cols2 : list StateColumn) :
  columnView <$> cols1 = columnView <$> cols2 ->
  columns_wf fresh cols1 -> columns_wf fresh cols2.
Proof.
  intros Hview [Hnd Hwf].
  assert (col_offset <$> cols1 = col_offset <$> cols2) as Hoffs.
  { change col_offset with (fst ∘ columnView).
    by rewrite !(list_fmap_compose columnView fst), Hview. }
  split; [by rewrite <- Hoffs|].
  apply Forall_lookup. intros j c2 Hc2.
  assert ((columnView <$> cols1) !! j = Some (columnView c2)) as H1.
  { by rewrite Hview, list_lookup_fmap, Hc2. }
  rewrite list_lookup_fmap in H1.
  destruct (cols1 !! j) as [c1|] eqn:Hc1; simpl in H1; [|done].
  rewrite Forall_lookup in Hwf. specialize (Hwf j c1 Hc1).
  assert (columnView c1 = columnView c2) as E by congruence.
  rewrite <- E. by rewrite <- (f_equal fst E : col_offset c1 = col_offset c2).
Qed.

(** [disableByteView] keeps the invariant: the array it leaves shows a
    part of what the array before showed, in the same order. *)
Lemma columns_wf_disabled (fresh : list StateColumn) (header : href) (h : Header)
    (i : nat) (c : StateColumn) (v : Viewer) :
  columns v !! i = Some c ->
  columns_wf fresh (columns v) ->
  columns_wf fresh (columns (disabledAt header h i c v)).
Proof.
  intros Hc [Hnd Hwf]. unfold disabledAt. cbn [columns with_columns with_heap].
  set (n := Z.to_nat (Z.max (hdr_length h) 1)).
  set (c' := with_selected false (with_header (Some header) c)).
  assert (take i (columns v) ++ c :: drop (i + n) (columns v) `sublist_of` columns v)
    as Hsub.
  { rewrite <- (take_drop_middle (columns v) i c Hc) at 3.
    apply sublist_app; [done|]. apply sublist_skip.
    replace (i + n)%nat with (S i + (n - 1))%nat by (unfold n; lia).
    rewrite <- drop_drop. apply sublist_drop. }
  apply (columns_wf_view fresh (take i (columns v) ++ c :: drop (i + n) (columns v))).
  { by rewrite !fmap_app, !fmap_cons. }
  split.
  - eapply sublist_NoDup; [exact Hnd|]. by apply fmap_sublist.
  - apply Forall_forall. intros c0 Hc0. rewrite Forall_forall in Hwf.
    apply Hwf. eapply elem_of_sublist; [exact Hc0|exact Hsub].
Qed.

Section LoadProps.
Context `{Collaborators}.

(** After [_loadDat] the columns are the fresh build of the statistics. *)
Lemma loadDat_columns_wf (settings : Settings) (parsed : DatFile) (v v' : Viewer) :
  _loadDat settings parsed v = (Ok tt, v') ->
  stateColumns settings (columnStats v') = Ok (columns v')
  /\ columns_wf (columns v') (columns v').
Proof.
  unfold _loadDat, bind, modify, gets, lift, alloc.
  cbn [columnStats with_columnStats with_rowNumberLength with_datFile].
  destruct (stateColumns settings (analyze parsed)) as [cols|e] eqn:Hcols; [|done].
  assert (columns_wf cols cols) as Hwf by (by eapply columns_wf_fresh).
  destruct (rowLength parsed =? 0)%Z; intros [= <-]; by cbn.
Qed.
End LoadProps.

Example loadDat_sample :
  (fun r => (r.1, length (columns r.2), columnStats r.2, headers r.2,
             map (fun h => (hdr_offset h, hdr_length h)) (vw_heap r.2),
             rowNumberLength r.2))
    (@_loadDat Sample.collaborators sampleSettings
       {| df_memsize := 4; rowCount := 2; rowLength := 8 |} emptyViewer)
  = (Ok tt, 8%nat, plainStats, [0%nat], [(0, 8)], 4)%Z.
Proof. vm_compute. reflexivity. Qed.

Example disableByteView_sample :
  (fun r => (r.1, map (fun c => (col_offset c, col_header c)) (columns r.2)))
    (disableByteView 0 sampleViewer)
  = (Ok tt, [(0, None); (1, None); (2, None); (3, None); (4, Some 0%nat)]%Z).
Proof. vm_compute. reflexivity. Qed.

Lemma disable_enable_restores_witness :
  exists v1 v2,
    disableByteView 0 sampleViewer = (Ok tt, v1)
    /\ enableByteView sampleSettings 0 v1 = (Ok tt, v2)
    /\ columnView <$> columns v2 = columnView <$> columns sampleViewer.
Proof.
  apply (disable_enable_restores sampleSettings 0%nat sampleHeader sampleViewer
           (builtColumns sampleSettings sampleStats) 4%nat).
  - reflexivity.
  - vm_compute. reflexivity.
  - apply (bool_decide_unpack _). vm_compute. exact I.
  - apply (bool_decide_unpack _). vm_compute. exact I.
Defined.

(** ** [tryImportHeaders] *)

Example tryImportHeaders_spec_example :
  (fun r => (r.1, map (fun c => (col_offset c, col_header c)) (columns r.2),
             map (fun h => (hdr_name h, hdr_offset h, hdr_length h)) (vw_heap r.2),
             headers r.2))
    (@tryImportHeaders Sample.collaborators [entryA; entryB] loadedViewer)
  = (Ok tt, [(0, Some 0%nat); (4, Some 1%nat)],
     [(Some "a", 0, 4); (Some "b", 4, 4)], [0%nat; 1%nat])%Z.
Proof. vm_compute. reflexivity. Qed.

Example tryImportHeaders_invalid_example :
  (fun r => (r.1, map (fun c => (col_offset c, col_header c)) (columns r.2)))
    (@tryImportHeaders Sample.collaborators [entryA; entryBad; entryB] loadedViewer)
  = (Throw (Error "The schema is invalid."),
     [(0, Some 0%nat); (4, None); (5, None); (6, None); (7, None)])%Z.
Proof. vm_compute. reflexivity. Qed.

Section ImportProps.
Context `{Collaborators}.

(** The loop over a schema [pre ++ rest] runs [pre], then [rest] from the
    offset and the state [pre] leaves; an exception in [pre] ends it. *)
Lemma importLoop_app datFile0 columnStats0 offset pre rest v :
  importLoop datFile0 columnStats0 offset (pre ++ rest) v
  = match importLoop datFile0 columnStats0 offset pre v with
    | (Ok offset1, v1) => importLoop datFile0 columnStats0 offset1 rest v1
    | (Throw e, v1) => (Throw e, v1)
    end.
Proof.
  revert offset v. induction pre as [|e pre IH]; intros offset v; [done|].
  cbn [app importLoop]. unfold bind.
  destruct (importEntry datFile0 columnStats0 offset e v) as [[offset'|exn] v']; [|done].
  apply IH.
Qed.

(** A named entry that the validator rejects throws and leaves the state
    as it found it. *)
Lemma importEntry_invalid df columnStats0 offset e name0 v :
  ser_name e = Some name0 ->
  validateImportedHeader
    {| hdr_name := None; hdr_offset := offset;
       hdr_length := getHeaderLength e (df_memsize df);
       hdr_type := ser_type e; cachedView := None |} columnStats0 = false ->
  importEntry (Some df) columnStats0 offset e v
  = (Throw (Error "The schema is invalid."), v).
Proof. intros Hname Hinvalid. unfold importEntry. by rewrite Hname, Hinvalid. Qed.

(** An unnamed entry is a gap: it only advances the offset. *)
Lemma importEntry_gap df columnStats0 offset e v :
  ser_name e = None ->
  importEntry (Some df) columnStats0 offset e v
  = (Ok (offset + getHeaderLength e (df_memsize df))%Z, v).
Proof. intros Hname. unfold importEntry. by rewrite Hname. Qed.

(** A method keeps the number of state columns. *)
Lemma updateHeader_columns header f v :
  columns (updateHeader header f v).2 = columns v.
Proof.
  unfold updateHeader, bind, deref, modify.
  by destruct (vw_heap v !! header).
Qed.

(** The import of an entry that is no materializable field does not call
    [disableByteView]: if the imported functions keep the number of state
    columns, so does the iteration. *)
Lemma importEntry_byteView_keeps_length datFile0 columnStats0 offset e v :
  (forall h v0, length (columns (selectColsByHeader h v0).2) = length (columns v0)) ->
  (forall v0, length (columns (createHeaderFromSelected v0).2) = length (columns v0)) ->
  (forall v0, length (columns (clearColumnSelection v0).2) = length (columns v0)) ->
  materializable (ser_type e) = false ->
  length (columns (importEntry datFile0 columnStats0 offset e v).2) = length (columns v).
Proof.
  intros Hsel Hcreate Hclear Hbytes. unfold importEntry.
  destruct datFile0 as [df|]; [|done].
  destruct (ser_name e) as [name0|]; [|done].
  destruct (negb _); [done|]. rewrite Hbytes. unfold bind, ret.
  specialize (Hsel {| hdr_name := None; hdr_offset := offset;
                      hdr_length := getHeaderLength e (df_memsize df);
                      hdr_type := ser_type e; cachedView := None |} v).
  destruct (selectColsByHeader _ v) as [[[]|e1] v1]; [|done]. simpl in Hsel.
  specialize (Hcreate v1).
  destruct (createHeaderFromSelected v1) as [[header|e2] v2]; simpl in Hcreate; [|simpl; lia].
  pose proof (updateHeader_columns header (with_name (Some name0)) v2) as Hupd.
  destruct (updateHeader header (with_name (Some name0)) v2) as [[[]|e3] v3];
    simpl in Hupd; [|simpl; rewrite Hupd; lia].
  specialize (Hclear v3).
  destruct (clearColumnSelection v3) as [[[]|e4] v4]; simpl in Hclear;
    simpl; rewrite Hclear, Hupd; lia.
Qed.

(** C2. Let the schema be [pre ++ e :: post], where the import of [pre]
    returns, leaving the offset [offset1] and the viewer [v1], and [e] is
    a named entry whose candidate header at [offset1] the validator
    rejects.  Then [tryImportHeaders] throws the schema-invalid error;
    the viewer it leaves is [v1]: what the entries of [pre] did, headers
    collapsed included, stays, and no entry of [post] has any effect. *)
Theorem tryImportHeaders_invalid (pre post : list DatSerializedHeader)
    (e : DatSerializedHeader) (name0 : string) (df : DatFile) (offset1 : Z)
    (v v1 : Viewer) :
  datFile v = Some df ->
  importLoop (datFile v) (columnStats v) 0 pre v = (Ok offset1, v1) ->
  ser_name e = Some name0 ->
  validateImportedHeader
    {| hdr_name := None; hdr_offset := offset1;
       hdr_length := getHeaderLength e (df_memsize df);
       hdr_type := ser_type e; cachedView := None |} (columnStats v) = false ->
  tryImportHeaders (pre ++ e :: post) v
  = (Throw (Error "The schema is invalid."), v1)
  /\ forall post', tryImportHeaders (pre ++ e :: post') v
                   = tryImportHeaders (pre ++ e :: post) v.
Proof.
  intros Hdf Hpre Hname Hinvalid.
  assert (forall post0, tryImportHeaders (pre ++ e :: post0) v
                        = (Throw (Error "The schema is invalid."), v1)) as Hall.
  { intros post0. unfold tryImportHeaders, bind, gets.
    rewrite importLoop_app, Hpre. simpl. unfold bind at 1.
    rewrite Hdf in *.
    by rewrite (importEntry_invalid df _ _ _ name0). }
  split; [apply Hall|]. intros post'. by rewrite !Hall.
Qed.
End ImportProps.

Lemma tryImportHeaders_invalid_witness :
  exists v1,
    (@tryImportHeaders Sample.collaborators ([entryA] ++ entryBad :: [entryB]) loadedViewer
     = (Throw (Error "The schema is invalid."), v1)
     /\ forall post', @tryImportHeaders Sample.collaborators
                        ([entryA] ++ entryBad :: post') loadedViewer
                      = @tryImportHeaders Sample.collaborators
                          ([entryA] ++ entryBad :: [entryB]) loadedViewer)
    /\ (col_header <$> columns v1) = [Some 0%nat; None; None; None; None].
Proof.
  eexists. split.
  - apply (@tryImportHeaders_invalid Sample.collaborators [entryA] [entryB] entryBad "s"
             {| df_memsize := 4; rowCount := 2; rowLength := 8 |} 4%Z loadedViewer).
    + reflexivity.
    + vm_compute. reflexivity.
    + reflexivity.
    + vm_compute. reflexivity.
  - vm_compute. reflexivity.
Defined.

(** ** [collectData] *)

Section Entries.
Implicit Types (es : list (string * Value)) (obj : Row).

Lemma fromEntries_snoc es key val :
  fromEntries (es ++ [(key, val)]) = <[key := val]> (fromEntries es).
Proof. unfold fromEntries. by rewrite foldl_app. Qed.

(** The value of a key is the value of its last entry. *)
Lemma fromEntries_last before after key val :
  Forall (fun e => e.1 <> key) after ->
  fromEntries (before ++ (key, val) :: after) !! key = Some val.
Proof.
  induction after as [|[key' val'] after IH] using rev_ind; intros Hafter.
  - rewrite fromEntries_snoc. apply lookup_insert_eq.
  - apply Forall_app in Hafter as [Hafter Hlast].
    rewrite Forall_singleton in Hlast. simpl in Hlast.
    rewrite app_comm_cons, app_assoc, fromEntries_snoc.
    rewrite lookup_insert_ne by done.
    by apply IH.
Qed.

Lemma fromEntries_notin es key :
  Forall (fun e => e.1 <> key) es -> fromEntries es !! key = None.
Proof.
  induction es as [|[key' val'] es IH] using rev_ind; intros Hes; [done|].
  apply Forall_app in Hes as [Hes Hlast].
  rewrite Forall_singleton in Hlast. simpl in Hlast.
  rewrite fromEntries_snoc, lookup_insert_ne by done. by apply IH.
Qed.

(** With distinct keys the object has one property per entry. *)
Lemma fromEntries_size es :
  NoDup es.*1 -> size (fromEntries es) = length es.
Proof.
  induction es as [|[key val] es IH] using rev_ind; intros Hnd; [done|].
  rewrite fmap_app in Hnd. apply NoDup_app in Hnd as (Hnd & Hdisj & _).
  rewrite fromEntries_snoc, length_app. simpl.
  rewrite map_size_insert_None.
  - rewrite IH by done. lia.
  - apply fromEntries_notin. apply Forall_forall. intros [key' val'] Hin Heq.
    simpl in Heq. subst key'. apply (Hdisj key).
    + apply list_elem_of_fmap. by exists (key, val').
    + simpl. apply list_elem_of_singleton. done.
Qed.

Lemma lookup_tabulate {A} (n : nat) (f : nat -> A) (i : nat) :
  (i < n)%nat -> tabulate n f !! i = Some (f i).
Proof.
  intros Hi. unfold tabulate. change (map f (seq 0 n)) with (f <$> seq 0 n).
  rewrite list_lookup_fmap, lookup_seq_lt by done. done.
Qed.

Lemma length_tabulate {A} (n : nat) (f : nat -> A) : length (tabulate n f) = n.
Proof. unfold tabulate. by rewrite length_map, length_seq. Qed.

Lemma lookup_tabulate_Some {A} (n : nat) (f : nat -> A) (i : nat) (x : A) :
  tabulate n f !! i = Some x -> (i < n)%nat /\ x = f i.
Proof.
  intros Hx. pose proof (lookup_lt_Some _ _ _ Hx) as Hi.
  rewrite length_tabulate in Hi. rewrite lookup_tabulate in Hx by done.
  split; [done|congruence].
Qed.
End Entries.

Section Callbacks.
Context {A B : Type}.

(** [every] and [map] with a callback that does not throw on the
    elements of the array. *)
Lemma every_pure (p : A -> Result bool) (q : A -> bool) (l : list A) :
  Forall (fun x => p x = Ok (q x)) l -> every p l = Ok (forallb q l).
Proof.
  induction 1 as [|x l Hx _ IH]; [done|].
  simpl. rewrite Hx. simpl. destruct (q x); [exact IH|done].
Qed.

Lemma mapR_pure (f : A -> Result B) (g : A -> B) (l : list A) :
  Forall (fun x => f x = Ok (g x)) l -> mapR f l = Ok (g <$> l).
Proof.
  induction 1 as [|x l Hx _ IH]; [done|].
  simpl. by rewrite Hx, IH.
Qed.

Lemma mapR_Ok_length (f : A -> Result B) (l : list A) (l' : list B) :
  mapR f l = Ok l' -> length l' = length l.
Proof.
  revert l'. induction l as [|x l IH]; intros l'; simpl.
  - by intros [= <-].
  - intros Hok. apply rbind_Ok in Hok as (y & _ & Hok).
    apply rbind_Ok in Hok as (ys & Hys & [= <-]). simpl. f_equal. by apply IH.
Qed.
End Callbacks.

Section ForeignKeys.

Lemma strictEqZero_VNum n : strictEqZero (VNum n) = (n =? 0)%Z.
Proof. by destruct n. Qed.

(** The branch for a key that is not an array, on any decoded data: it
    returns the record ids when every entry passes the check, and throws
    the assertion otherwise. *)
Lemma foreignRids_spec (data : list Value) :
  foreignRids data
  = if forallb acceptedKey data then Ok (ridOf <$> data) else Throw (Error "never").
Proof.
  unfold foreignRids.
  rewrite (every_pure _ acceptedKey).
  2:{ apply Forall_forall. intros row _.
      destruct row; simpl; try done; by rewrite strictEqZero_VNum. }
  cbn [rbind]. destruct (forallb acceptedKey data) eqn:Hacc; [|done].
  cbn [negb]. apply mapR_pure.
  rewrite forallb_forall in Hacc. apply Forall_forall. intros row Hrow.
  apply list_elem_of_In, Hacc in Hrow. by destruct row.
Qed.

(** The branch for an array key, on arrays of key objects. *)
Lemma foreignRidArrays_spec (data : list Value) :
  forallb isKeyArray data = true ->
  foreignRidArrays data
  = if forallb unknownZero data then Ok (ridsOf <$> data) else Throw (Error "never").
Proof.
  intros Htyped. rewrite forallb_forall in Htyped.
  unfold foreignRidArrays.
  rewrite (every_pure _ unknownZero).
  2:{ apply Forall_forall. intros row Hrow.
      apply list_elem_of_In, Htyped in Hrow.
      destruct row as [| | | | | |entries]; try done. simpl in *.
      apply every_pure. rewrite forallb_forall in Hrow.
      apply Forall_forall. intros entry Hentry.
      apply list_elem_of_In, Hrow in Hentry.
      destruct entry; try done; simpl; by rewrite strictEqZero_VNum. }
  cbn [rbind]. destruct (forallb unknownZero data); [|done].
  cbn [negb]. apply mapR_pure.
  apply Forall_forall. intros row Hrow.
  apply list_elem_of_In, Htyped in Hrow.
  destruct row as [| | | | | |entries]; try done. simpl in *.
  rewrite (mapR_pure _ ridOf); [done|].
  rewrite forallb_forall in Hrow.
  apply Forall_forall. intros entry Hentry.
  apply list_elem_of_In, Hrow in Hentry. by destruct entry.
Qed.
End ForeignKeys.

Section CollectProps.
Context `{Collaborators}.
Implicit Types (hs : list Header) (cols : list Column).

(** A header that is no foreign key contributes its decoded data. *)
Lemma columnData_plain thisDatFile header :
  isForeign (hdr_type header) = false ->
  columnData thisDatFile header = Ok (headerData thisDatFile header).
Proof. intros Hf. unfold columnData. by rewrite Hf. Qed.

(** The columns [map] returns: one per header, named by position. *)
Lemma toColumnsFrom_Ok thisDatFile idx hs cols :
  toColumnsFrom thisDatFile idx hs = Ok cols ->
  length cols = length hs
  /\ forall k header, hs !! k = Some header ->
       exists col, cols !! k = Some col
         /\ name col = columnName (idx + k) header
         /\ columnData thisDatFile header = Ok (data col).
Proof.
  revert idx cols. induction hs as [|header hs IH]; intros idx cols; simpl.
  - intros [= <-]. split; [done|]. intros k header Hk. done.
  - intros Hok. apply rbind_Ok in Hok as (col & Hcol & Hok).
    apply rbind_Ok in Hok as (cols' & Hcols' & [= <-]).
    destruct (IH _ _ Hcols') as [Hlen Hlook].
    split; [simpl; by f_equal|].
    unfold toColumn in Hcol. apply rbind_Ok in Hcol as (d & Hd & [= <-]).
    intros [|k] header' Hk; simpl in Hk.
    + injection Hk as <-. eexists. split; [done|]. simpl.
      by rewrite Nat.add_0_r.
    + destruct (Hlook k header' Hk) as (col' & Hc' & Hn' & Hd').
      exists col'. split; [done|]. split; [|done].
      by replace (idx + S k)%nat with (S idx + k)%nat by lia.
Qed.

(** [map] returns when the callback returns on every header. *)
Lemma toColumnsFrom_returns thisDatFile idx hs :
  Forall (fun header => isOk (columnData thisDatFile header) = true) hs ->
  exists cols, toColumnsFrom thisDatFile idx hs = Ok cols.
Proof.
  intros Hall. revert idx.
  induction Hall as [|header hs Hh _ IH]; intros idx; simpl; [by eexists|].
  unfold toColumn. destruct (columnData thisDatFile header) as [d|e]; [|done].
  cbn [rbind]. destruct (IH (S idx)) as [cols ->]. by eexists.
Qed.

(** An exception of the callback on some header leaves no columns. *)
Lemma toColumnsFrom_throws thisDatFile idx hs header e :
  header ∈ hs -> columnData thisDatFile header = Throw e ->
  exists e', toColumnsFrom thisDatFile idx hs = Throw e'.
Proof.
  intros Hin Hthrow. revert idx.
  induction Hin as [header hs|header header' hs Hin IH]; intros idx; simpl.
  - unfold toColumn. rewrite Hthrow. by eexists.
  - destruct (toColumn thisDatFile idx header'); simpl; [|by eexists].
    destruct (IH Hthrow (S idx)) as [e' ->]. by eexists.
Qed.

Lemma collectData_throws v hs header e :
  thisHeaders v = Ok hs ->
  header ∈ materializableHeaders hs ->
  columnData (datFile v) header = Throw e ->
  exists e', collectData v = Throw e'.
Proof.
  intros Hhs Hin Hthrow. unfold collectData, collectColumns. rewrite Hhs.
  cbn [rbind].
  destruct (toColumnsFrom_throws (datFile v) 0 _ _ _ Hin Hthrow) as [e' ->].
  by eexists.
Qed.

Lemma length_buildRows n cols : length (buildRows n cols) = n.
Proof. apply length_tabulate. Qed.

Lemma lookup_buildRows n cols idx row :
  buildRows n cols !! idx = Some row ->
  (idx < n)%nat
  /\ row = fromEntries (map (fun col => (name col, dataAt col idx)) cols).
Proof.
  intros Hrow. unfold buildRows in Hrow.
  by apply lookup_tabulate_Some in Hrow.
Qed.
End CollectProps.

Section CollectClaims.
Context `{Collaborators}.
Implicit Types (hs : list Header) (cols : list Column).

Lemma toColumnsFrom_names thisDatFile hs cols :
  toColumnsFrom thisDatFile 0 hs = Ok cols ->
  name <$> cols = imap columnName hs.
Proof.
  intros Hok. apply toColumnsFrom_Ok in Hok as [Hlen Hlook].
  apply list_eq; intros k. rewrite list_lookup_fmap, list_lookup_imap.
  destruct (hs !! k) as [header|] eqn:Hk; simpl.
  - destruct (Hlook k header Hk) as (col & -> & Hname & _). simpl. by rewrite Hname.
  - apply lookup_ge_None in Hk. rewrite lookup_ge_None_2 by lia. done.
Qed.

Lemma collectData_Ok v cols df :
  collectColumns v = Ok cols -> datFile v = Some df ->
  collectData v = Ok (buildRows (rowCount df) (ridColumn (rowCount df) :: cols)).
Proof. intros Hcols Hdf. unfold collectData. by rewrite Hcols, Hdf. Qed.

Lemma dataAt_ridColumn n idx :
  (idx < n)%nat -> dataAt (ridColumn n) idx = VNum (Z.of_nat idx).
Proof. intros Hidx. unfold dataAt, ridColumn. cbn [data]. by rewrite lookup_tabulate. Qed.

(** C3, as amended. For a file of [N] rows and headers of which [M] are
    materializable, none of them a foreign key, whose column names are
    pairwise distinct and differ from ["_rid"], [collectData] returns
    exactly [N] row objects; each has [M + 1] keys, and the ["_rid"] of
    the [k]-th is [k]. *)
Theorem collectData_rows (v : Viewer) (hs : list Header) (df : DatFile) :
  thisHeaders v = Ok hs ->
  datFile v = Some df ->
  Forall (fun header => isForeign (hdr_type header) = false) (materializableHeaders hs) ->
  NoDup ("_rid" :: imap columnName (materializableHeaders hs)) ->
  exists rows,
    collectData v = Ok rows
    /\ length rows = rowCount df
    /\ forall k row, rows !! k = Some row ->
         size row = S (length (materializableHeaders hs))
         /\ row !! "_rid" = Some (VNum (Z.of_nat k)).
Proof.
  intros Hhs Hdf Hplain Hnames.
  destruct (toColumnsFrom_returns (datFile v) 0 (materializableHeaders hs)) as [cols Hcols].
  { eapply Forall_impl; [exact Hplain|]. intros header Hf. simpl in Hf.
    by rewrite columnData_plain. }
  assert (collectColumns v = Ok cols) as Hcc.
  { unfold collectColumns. by rewrite Hhs. }
  pose proof (toColumnsFrom_names _ _ _ Hcols) as Hn.
  pose proof (toColumnsFrom_Ok _ _ _ _ Hcols) as [Hlen _].
  eexists. split; [by apply collectData_Ok|].
  split; [apply length_buildRows|].
  intros k row Hrow. apply lookup_buildRows in Hrow as [Hk ->].
  set (entries := map _ _).
  assert (entries.*1 = "_rid" :: imap columnName (materializableHeaders hs)) as Hkeys.
  { unfold entries. simpl. f_equal. rewrite <- Hn.
    rewrite <- list_fmap_compose. done. }
  split.
  - rewrite fromEntries_size by (by rewrite Hkeys).
    unfold entries. rewrite length_map. simpl. by rewrite Hlen.
  - unfold entries. cbn [map]. rewrite <- (dataAt_ridColumn (rowCount df)) by done.
    apply (fromEntries_last []).
    apply Forall_forall. intros [key val] Hin Heq. simpl in Heq. subst key.
    apply NoDup_cons in Hnames as [Hnotin _]. apply Hnotin. rewrite <- Hn.
    apply list_elem_of_In, in_map_iff in Hin as (c & [= Hc _] & Hcin).
    apply list_elem_of_fmap. exists c. split; [done|by apply list_elem_of_In].
Qed.

(** C8. The columns are written to the row object in order, the synthetic
    ["_rid"] first: when several columns have the name of [col] and [col]
    is the last of them, the row holds the value of [col] under that
    name.  Duplicate names are not reported: [collectData] returns
    whenever the columns could be computed. *)
Theorem collectData_overwrites (v : Viewer) (cols before after : list Column)
    (col : Column) (df : DatFile) (idx : nat) :
  collectColumns v = Ok cols ->
  datFile v = Some df ->
  ridColumn (rowCount df) :: cols = before ++ col :: after ->
  Forall (fun c => name c <> name col) after ->
  (idx < rowCount df)%nat ->
  exists rows row,
    collectData v = Ok rows
    /\ rows !! idx = Some row
    /\ row !! name col = Some (dataAt col idx).
Proof.
  intros Hcols Hdf Hsplit Hafter Hidx.
  eexists. eexists. split; [by apply collectData_Ok|].
  split; [unfold buildRows; by apply lookup_tabulate|].
  rewrite Hsplit, map_app. cbn [map].
  apply fromEntries_last.
  apply Forall_forall. intros [key val] Hin. simpl.
  apply list_elem_of_In, in_map_iff in Hin as (c & [= <- <-] & Hc).
  rewrite Forall_forall in Hafter. apply Hafter. by apply list_elem_of_In.
Qed.

(** C9. A materializable header whose name is [null] or the empty string
    gets the name [Unknown<N>], [N] its position, counted from 1, among
    the materializable headers. *)
Theorem empty_name_is_unnamed (v : Viewer) (hs : list Header) (cols : list Column)
    (k : nat) (header : Header) :
  thisHeaders v = Ok hs ->
  collectColumns v = Ok cols ->
  materializableHeaders hs !! k = Some header ->
  hdr_name header = Some "" \/ hdr_name header = None ->
  exists col,
    cols !! k = Some col
    /\ name col = "Unknown" +:+ toString10 (Z.of_nat k + 1).
Proof.
  intros Hhs Hcols Hk Hname. unfold collectColumns in Hcols.
  rewrite Hhs in Hcols. cbn [rbind] in Hcols.
  apply toColumnsFrom_Ok in Hcols as [_ Hlook].
  destruct (Hlook k header Hk) as (col & Hcol & Hn & _).
  exists col. split; [done|]. rewrite Hn. unfold columnName. simpl.
  by destruct Hname as [-> | ->].
Qed.

Lemma acceptedKey_unknownZero data :
  forallb isKeyOrNull data = true ->
  forallb acceptedKey data = forallb unknownZero data.
Proof.
  induction data as [|row data IH]; [done|]. simpl.
  intros [Hrow Hdata]%andb_true_iff. rewrite IH by done.
  f_equal. by destruct row.
Qed.

(** C4. For a materializable foreign-key header whose decoded entries
    are keys or [null] (arrays of keys for an array key): when every
    [unknown] component is 0, the column holds the [rid] of each entry
    (of each sub-entry for an array key); when some [unknown] component
    is not 0, the column throws the assertion, and [collectData] throws
    and returns no rows. *)
Theorem foreign_key_unknown_check (v : Viewer) (hs : list Header) (header : Header) :
  thisHeaders v = Ok hs ->
  header ∈ materializableHeaders hs ->
  isForeign (hdr_type header) = true ->
  keysWellTyped (hdr_type header) (headerData (datFile v) header) = true ->
  columnData (datFile v) header
  = (if forallb unknownZero (headerData (datFile v) header)
     then Ok (keysToRids (hdr_type header) (headerData (datFile v) header))
     else Throw (Error "never"))
  /\ (forallb unknownZero (headerData (datFile v) header) = false ->
      exists e, collectData v = Throw e).
Proof.
  intros Hhs Hin Hforeign Htyped.
  assert (columnData (datFile v) header
          = (if forallb unknownZero (headerData (datFile v) header)
             then Ok (keysToRids (hdr_type header) (headerData (datFile v) header))
             else Throw (Error "never"))) as Hdata.
  { unfold columnData, keysWellTyped, keysToRids in *. rewrite Hforeign.
    destruct (isArrayRef (hdr_type header)); cbn [negb].
    - by apply foreignRidArrays_spec.
    - rewrite foreignRids_spec. by rewrite acceptedKey_unknownZero. }
  split; [done|]. intros Hnonzero. rewrite Hnonzero in Hdata.
  by eapply collectData_throws.
Qed.

(** C10. For a foreign key that is not an array, a [null] entry passes
    the check: if the entries other than [null] pass it, the column is
    computed, and it holds [null] where the decoded data does. *)
Theorem foreign_key_null_entry (thisDatFile : option DatFile) (header : Header)
    (k : nat) :
  isForeign (hdr_type header) = true ->
  isArrayRef (hdr_type header) = false ->
  headerData thisDatFile header !! k = Some VNull ->
  (forall j row, headerData thisDatFile header !! j = Some row ->
                 row <> VNull -> acceptedKey row = true) ->
  exists out,
    columnData thisDatFile header = Ok out
    /\ out !! k = Some VNull
    /\ length out = length (headerData thisDatFile header).
Proof.
  intros Hforeign Harray Hnull Hothers.
  unfold columnData. rewrite Hforeign, Harray. cbn [negb].
  rewrite foreignRids_spec.
  assert (forallb acceptedKey (headerData thisDatFile header) = true) as ->.
  { apply forallb_forall. intros row Hrow.
    apply list_elem_of_In, list_elem_of_lookup in Hrow as [j Hj].
    destruct row; try done; by apply (Hothers j). }
  eexists. split; [done|]. split.
  - by rewrite list_lookup_fmap, Hnull.
  - by rewrite length_fmap.
Qed.
End CollectClaims.

(** ** The claims on concrete viewers *)

Example collectData_plain_sample :
  (fun rows => map (fun row : Row => (row !! "_rid", row !! "Id", row !! "Unknown2",
                                      row !! "Size", size row)) rows)
    <$> (match @collectData Sample.collaborators (viewerOf plainHeaders) with
         | Ok rows => Some rows | Throw _ => None end)
  = Some [(Some (VNum 0), Some (VNum 10), Some (VStr "x"), Some (VNum 8), 4%nat);
          (Some (VNum 1), Some (VNum 20), Some (VStr "y"), Some (VNum 20), 4%nat);
          (Some (VNum 2), Some (VNum 30), Some (VStr "z"), Some (VNum 32), 4%nat)].
Proof. vm_compute. reflexivity. Qed.

Example collectData_keys_sample :
  (fun rows => map (fun row : Row => (row !! "Unknown2", row !! "Refs")) rows)
    <$> (match @collectData Sample.collaborators (viewerOf keyHeaders) with
         | Ok rows => Some rows | Throw _ => None end)
  = Some [(Some (VNum 7), Some (VArr [VNum 1; VNum 2]));
          (Some VNull, Some (VArr []));
          (Some (VNum 9), Some (VArr [VNum 3]))].
Proof. vm_compute. reflexivity. Qed.

Example collectData_broken_sample :
  @collectData Sample.collaborators (viewerOf brokenHeaders) = Throw (Error "never").
Proof. vm_compute. reflexivity. Qed.

Lemma collectData_rows_witness :
  exists rows,
    @collectData Sample.collaborators (viewerOf plainHeaders) = Ok rows
    /\ length rows = rowCount sampleFile
    /\ forall k row, rows !! k = Some row ->
         size row = S (length (materializableHeaders plainHeaders))
         /\ row !! "_rid" = Some (VNum (Z.of_nat k)).
Proof.
  apply (@collectData_rows Sample.collaborators (viewerOf plainHeaders) plainHeaders
           sampleFile).
  - reflexivity.
  - reflexivity.
  - apply (bool_decide_unpack _). vm_compute. exact I.
  - apply (bool_decide_unpack _). vm_compute. exact I.
Defined.

(** C3 as stated fails: the three headers of [clashHeaders] are
    materializable and none is a foreign key, yet the rows have two keys,
    not four, and their ["_rid"] is the string of the header named
    ["_rid"], not the row index. *)
Lemma collectData_name_clash :
  length (materializableHeaders clashHeaders) = 3%nat
  /\ Forall (fun header => isForeign (hdr_type header) = false)
            (materializableHeaders clashHeaders)
  /\ (exists rows row,
        @collectData Sample.collaborators (viewerOf clashHeaders) = Ok rows
        /\ rows !! 0%nat = Some row
        /\ size row = 2%nat
        /\ row !! "_rid" = Some (VStr "x"))
  /\ ~ (exists rows,
          @collectData Sample.collaborators (viewerOf clashHeaders) = Ok rows
          /\ length rows = 3%nat
          /\ forall k row, rows !! k = Some row ->
               size row = 4%nat /\ row !! "_rid" = Some (VNum (Z.of_nat k))).
Proof.
  split; [reflexivity|].
  split; [apply (bool_decide_unpack _); vm_compute; exact I|].
  destruct (@collectData Sample.collaborators (viewerOf clashHeaders)) as [rows|e] eqn:E;
    [|vm_compute in E; discriminate].
  assert (exists row, rows !! 0%nat = Some row /\ size row = 2%nat
                      /\ row !! "_rid" = Some (VStr "x")) as (row & Hrow & Hsize & Hrid).
  { vm_compute in E. injection E as <-. eexists. split; [reflexivity|].
    split; vm_compute; reflexivity. }
  split.
  - exists rows, row. done.
  - intros (rows' & [= <-] & _ & Hall).
    destruct (Hall 0%nat row Hrow) as [Hsize' _]. rewrite Hsize in Hsize'. discriminate.
Qed.

Lemma collectData_overwrites_witness :
  exists rows row,
    @collectData Sample.collaborators (viewerOf clashHeaders) = Ok rows
    /\ rows !! 1%nat = Some row
    /\ row !! name secondIdColumn = Some (dataAt secondIdColumn 1).
Proof.
  eapply (@collectData_overwrites Sample.collaborators (viewerOf clashHeaders) _
            [ridColumn 3; {| name := "_rid"; data := [VStr "x"; VStr "y"; VStr "z"] |};
             {| name := "Id"; data := [VNum 10; VNum 20; VNum 30] |}]
            [] secondIdColumn sampleFile 1%nat).
  - vm_compute. reflexivity.
  - reflexivity.
  - vm_compute. reflexivity.
  - constructor.
  - simpl. lia.
Defined.

Lemma empty_name_is_unnamed_witness :
  exists col,
    [ {| name := "Id"; data := [VNum 10; VNum 20; VNum 30] |};
      {| name := "Unknown2"; data := [VStr "x"; VStr "y"; VStr "z"] |};
      {| name := "Size"; data := [VNum 8; VNum 20; VNum 32] |} ] !! 1%nat = Some col
    /\ name col = "Unknown" +:+ toString10 (Z.of_nat 1 + 1).
Proof.
  apply (@empty_name_is_unnamed Sample.collaborators (viewerOf plainHeaders) plainHeaders
           _ 1%nat emptyNameHeader).
  - reflexivity.
  - vm_compute. reflexivity.
  - reflexivity.
  - left. reflexivity.
Defined.

Lemma foreign_key_unknown_check_witness :
  (@columnData Sample.collaborators (datFile (viewerOf keyHeaders)) foreignArrayHeader
   = Ok [VArr [VNum 1; VNum 2]; VArr []; VArr [VNum 3]]
   /\ @columnData Sample.collaborators (datFile (viewerOf brokenHeaders)) brokenKeyHeader
      = Throw (Error "never"))
  /\ exists e, @collectData Sample.collaborators (viewerOf brokenHeaders) = Throw e.
Proof.
  pose proof (@foreign_key_unknown_check Sample.collaborators (viewerOf keyHeaders)
                keyHeaders foreignArrayHeader) as Hgood.
  pose proof (@foreign_key_unknown_check Sample.collaborators (viewerOf brokenHeaders)
                brokenHeaders brokenKeyHeader) as Hbad.
  destruct Hgood as [Hgood _].
  { reflexivity. }
  { apply list_elem_of_lookup. by exists 2%nat. }
  { reflexivity. }
  { reflexivity. }
  destruct Hbad as [Hbad Hthrows].
  { reflexivity. }
  { apply list_elem_of_lookup. by exists 1%nat. }
  { reflexivity. }
  { reflexivity. }
  split; [split; [exact Hgood|exact Hbad]|].
  apply Hthrows. reflexivity.
Defined.

Lemma foreign_key_null_entry_witness :
  exists out,
    @columnData Sample.collaborators (Some sampleFile) foreignHeader = Ok out
    /\ out !! 1%nat = Some VNull
    /\ length out = length (@headerData Sample.collaborators (Some sampleFile) foreignHeader).
Proof.
  apply (@foreign_key_null_entry Sample.collaborators (Some sampleFile) foreignHeader 1%nat).
  - reflexivity.
  - reflexivity.
  - reflexivity.
  - intros [|[|[|j]]] row Hrow Hne; simpl in Hrow; try discriminate;
      injection Hrow as <-; [reflexivity|congruence|reflexivity].
Defined.

(** * Further properties *)

(** ** [stateColumns]: what the build throws, and what it leaves alone *)

Lemma setFlags_Ok_or_TypeError upd pos count cols :
  isOk (setFlags upd pos count cols) = true
  \/ setFlags upd pos count cols = Throw TypeError.
Proof.
  revert pos cols. induction count as [|count IH]; intros pos cols; simpl; [by left|].
  destruct (cols !! pos); [apply IH|by right].
Qed.

Lemma propagate_Ok_or_TypeError idx stat cols :
  isOk (propagate idx stat cols) = true \/ propagate idx stat cols = Throw TypeError.
Proof.
  unfold propagate. rewrite setFlags_guard.
  destruct (setFlags_Ok_or_TypeError mark_string idx
              (runOf (refString stat) (memsize stat)) cols) as [H1| ->]; [|by right].
  destruct (setFlags mark_string idx _ cols) as [cols1|]; [|done].
  cbn [rbind]. rewrite setFlags_guard.
  destruct (setFlags_Ok_or_TypeError mark_array idx
              (runOf (refArray stat) (memsize stat * 2)) cols1) as [H2| ->]; [|by right].
  destruct (setFlags mark_array idx _ cols1) as [cols2|]; [|done].
  cbn [rbind]. rewrite setFlags_guard. apply setFlags_Ok_or_TypeError.
Qed.

Lemma propagateFrom_Ok_or_TypeError idx rest cols :
  isOk (propagateFrom idx rest cols) = true
  \/ propagateFrom idx rest cols = Throw TypeError.
Proof.
  revert idx cols. induction rest as [|stat rest IH]; intros idx cols; [by left|].
  cbn [propagateFrom].
  destruct (propagate_Ok_or_TypeError idx stat cols) as [H1| ->]; [|by right].
  destruct (propagate idx stat cols) as [cols1|]; [|done]. apply IH.
Qed.

Lemma stateColumns_throws_TypeError (settings : Settings)
    (columnStats : list ColumnStats) :
  ~ fits columnStats -> stateColumns settings columnStats = Throw TypeError.
Proof.
  intros Hfit.
  destruct (propagateFrom_Ok_or_TypeError 0 columnStats
              (imap (initColumn settings) columnStats)) as [Hok|Hthrow]; [|done].
  exfalso. apply Hfit. fold (stateColumns settings columnStats) in Hok.
  destruct (stateColumns settings columnStats) as [cols|] eqn:E; [|done].
  by eapply stateColumns_Ok_fits.
Qed.

(** X1. In the columns [stateColumns] returns, [stats.string] is set on
    column [j] exactly when [j] lies in the [memsize] columns of some
    offset flagged [refString]; likewise [stats.array] for the
    [2 * memsize] columns of a [refArray] and [stats.nullable] for the
    [memsize] columns of a [nullableMemsize].  No flag is set outside a
    flagged run. *)
Theorem stateColumns_flags_exact (settings : Settings) (columnStats : list ColumnStats)
    (cols : list StateColumn) (j : nat) (c : StateColumn) :
  stateColumns settings columnStats = Ok cols ->
  cols !! j = Some c ->
  (st_string (stats c) = true <->
     exists i stat, columnStats !! i = Some stat /\ refString stat = true
       /\ (i <= j < i + Z.to_nat (memsize stat))%nat)
  /\ (st_array (stats c) = true <->
     exists i stat, columnStats !! i = Some stat /\ refArray stat = true
       /\ (i <= j < i + Z.to_nat (memsize stat * 2))%nat)
  /\ (st_nullable (stats c) = true <->
     exists i stat, columnStats !! i = Some stat /\ nullableMemsize stat = true
       /\ (i <= j < i + Z.to_nat (memsize stat))%nat).
Proof.
  intros Hok Hc. apply stateColumns_Ok_built in Hok. subst cols.
  rewrite lookup_builtColumns in Hc.
  destruct (columnStats !! j) as [stat0|]; simpl in Hc; [|done].
  injection Hc as <-. cbn [stats with_stats initColumn].
  rewrite overlay_string, overlay_array, overlay_nullable. cbn.
  repeat split; try (intros [?|?]; [done|done]); by right.
Qed.

Lemma stateColumns_flags_exact_witness :
  exists c,
    builtColumns sampleSettings sampleStats !! 9%nat = Some c
    /\ ((st_string (stats c) = true <->
           exists i stat, sampleStats !! i = Some stat /\ refString stat = true
             /\ (i <= 9 < i + Z.to_nat (memsize stat))%nat)
        /\ (st_array (stats c) = true <->
           exists i stat, sampleStats !! i = Some stat /\ refArray stat = true
             /\ (i <= 9 < i + Z.to_nat (memsize stat * 2))%nat)
        /\ (st_nullable (stats c) = true <->
           exists i stat, sampleStats !! i = Some stat /\ nullableMemsize stat = true
             /\ (i <= 9 < i + Z.to_nat (memsize stat))%nat)).
Proof.
  eexists. split; [reflexivity|].
  apply (stateColumns_flags_exact sampleSettings sampleStats
           (builtColumns sampleSettings sampleStats) 9%nat).
  - vm_compute. reflexivity.
  - reflexivity.
Defined.

(** X2. [stateColumns] returns exactly on the statistics in which every
    flagged construct ends within the array; on any other input it throws
    a [TypeError] (the read of [.stats] of an undefined column) and no
    other exception. *)
Theorem stateColumns_returns_iff_fits (settings : Settings)
    (columnStats : list ColumnStats) :
  (isOk (stateColumns settings columnStats) = true <-> fits columnStats)
  /\ (~ fits columnStats -> stateColumns settings columnStats = Throw TypeError).
Proof.
  split; [split|].
  - destruct (stateColumns settings columnStats) as [cols|] eqn:E; [|done].
    intros _. by eapply stateColumns_Ok_fits.
  - intros Hfit. by rewrite stateColumns_ok.
  - apply stateColumns_throws_TypeError.
Qed.

Lemma overlay_b00_bMax idx rest j s :
  st_b00 (overlay idx rest j s) = st_b00 s /\ st_bMax (overlay idx rest j s) = st_bMax s.
Proof.
  revert idx s. induction rest as [|stat rest IH]; intros idx s; [done|].
  simpl. by destruct (IH (S idx) (flagsAt idx stat j s)) as [-> ->].
Qed.

(** The column returned at index [j]: the initial column of the statistics
    entry [j] under the overlay of the flags. *)
Lemma stateColumns_column (settings : Settings) (columnStats : list ColumnStats)
    (cols : list StateColumn) (j : nat) (c : StateColumn) :
  stateColumns settings columnStats = Ok cols ->
  cols !! j = Some c ->
  exists stat,
    columnStats !! j = Some stat
    /\ c = with_stats (overlay 0 columnStats j) (initColumn settings j stat).
Proof.
  intros Hok Hc. apply stateColumns_Ok_built in Hok. subst cols.
  rewrite lookup_builtColumns in Hc.
  destruct (columnStats !! j) as [stat|]; simpl in Hc; [|done].
  injection Hc as <-. by exists stat.
Qed.

(** X3. The propagation loops of [stateColumns] write nothing but the
    three flags: the column returned at index [j] has offset [j], is not
    selected, has no header and no [dataStart], and carries [b00], the
    hexadecimal [bMax] and the two column numbers computed from the
    statistics entry [j] and the settings. *)
Theorem stateColumns_fields (settings : Settings) (columnStats : list ColumnStats)
    (cols : list StateColumn) (j : nat) (c : StateColumn) :
  stateColumns settings columnStats = Ok cols ->
  cols !! j = Some c ->
  exists stat,
    columnStats !! j = Some stat
    /\ col_offset c = Z.of_nat j
    /\ selected c = false
    /\ col_header c = None
    /\ dataStart c = false
    /\ st_b00 (stats c) = b00 stat
    /\ st_bMax (stats c) = padStart 2 "0" (toString16 (bMax stat))
    /\ colNum99 c
       = padStart 2 "0" (toString10 (Z.rem (Z.of_nat j + colNumStart settings) 100))
    /\ colNum100 c = padStart 2 "0" (toString10 (Z.of_nat j + colNumStart settings)).
Proof.
  intros Hok Hc.
  destruct (stateColumns_column _ _ _ _ _ Hok Hc) as (stat & Hstat & ->).
  exists stat. split; [done|]. cbn.
  destruct (overlay_b00_bMax 0 columnStats j
              {| st_string := false; st_array := false; st_b00 := b00 stat;
                 st_nullable := false;
                 st_bMax := padStart 2 "0" (toString16 (bMax stat)) |}) as [Hb Hm].
  by rewrite Hb, Hm.
Qed.

Lemma stateColumns_fields_witness :
  exists c stat,
    builtColumns sampleSettings sampleStats !! 4%nat = Some c
    /\ sampleStats !! 4%nat = Some stat
    /\ col_offset c = 4%Z
    /\ selected c = false
    /\ col_header c = None
    /\ dataStart c = false
    /\ st_b00 (stats c) = b00 stat
    /\ st_bMax (stats c) = "03"
    /\ colNum99 c = "04"
    /\ colNum100 c = "04".
Proof.
  destruct (stateColumns_fields sampleSettings sampleStats
              (builtColumns sampleSettings sampleStats) 4%nat
              (with_stats (overlay 0 sampleStats 4) (initColumn sampleSettings 4 arrayStat)))
    as (stat & Hstat & H); [vm_compute; reflexivity|reflexivity|].
  eexists _, stat. split; [reflexivity|]. split; [exact Hstat|].
  injection Hstat as <-. exact H.
Defined.

(** Lengths of the display strings. *)
Lemma length_string_rep n c : String.length (string_rep n c) = n.
Proof. induction n as [|n IH]; simpl; [done|by rewrite IH]. Qed.

Lemma length_string_app (s1 s2 : string) :
  String.length (s1 +:+ s2) = (String.length s1 + String.length s2)%nat.
Proof. induction s1 as [|a s1 IH]; simpl; [done|by rewrite IH]. Qed.

Lemma length_padStart target c s :
  String.length (padStart target c s) = Nat.max target (String.length s).
Proof. unfold padStart. rewrite length_string_app, length_string_rep. lia. Qed.

Lemma length_toString10_small (n : Z) :
  (0 <= n < 100)%Z -> (String.length (toString10 n) <= 2)%nat.
Proof.
  intros Hn.
  assert (Forall (fun k => String.length (toString10 (Z.of_nat k)) <= 2)%nat (seq 0 100))
    as Hall by (apply (bool_decide_unpack _); vm_compute; exact I).
  rewrite Forall_forall in Hall. specialize (Hall (Z.to_nat n)).
  rewrite Z2Nat.id in Hall by lia. apply Hall. apply elem_of_seq. lia.
Qed.

Lemma length_toString16_byte (n : Z) :
  (0 <= n <= 255)%Z -> (String.length (toString16 n) <= 2)%nat.
Proof.
  intros Hn.
  assert (Forall (fun k => String.length (toString16 (Z.of_nat k)) <= 2)%nat (seq 0 256))
    as Hall by (apply (bool_decide_unpack _); vm_compute; exact I).
  rewrite Forall_forall in Hall. specialize (Hall (Z.to_nat n)).
  rewrite Z2Nat.id in Hall by lia. apply Hall. apply elem_of_seq. lia.
Qed.

(** X4. The display strings have a fixed width: with a column numbering
    that starts at a non-negative number, [colNum99] has exactly two
    characters and [colNum100] at least two; and [stats.bMax] has exactly
    two characters when the statistic's [bMax] is a byte. *)
Theorem stateColumns_display_width (settings : Settings)
    (columnStats : list ColumnStats) (cols : list StateColumn) (j : nat)
    (c : StateColumn) (stat : ColumnStats) :
  stateColumns settings columnStats = Ok cols ->
  cols !! j = Some c ->
  columnStats !! j = Some stat ->
  (0 <= colNumStart settings)%Z ->
  String.length (colNum99 c) = 2%nat
  /\ (2 <= String.length (colNum100 c))%nat
  /\ ((0 <= bMax stat <= 255)%Z -> String.length (st_bMax (stats c)) = 2%nat).
Proof.
  intros Hok Hc Hstat Hstart.
  destruct (stateColumns_column _ _ _ _ _ Hok Hc) as (stat' & Hstat' & ->).
  assert (stat' = stat) as -> by congruence.
  cbn [colNum99 colNum100 stats with_stats initColumn].
  destruct (overlay_b00_bMax 0 columnStats j
              {| st_string := false; st_array := false; st_b00 := b00 stat;
                 st_nullable := false;
                 st_bMax := padStart 2 "0" (toString16 (bMax stat)) |}) as [_ Hm].
  rewrite Hm. cbn [st_bMax]. rewrite !length_padStart.
  split; [|split; [lia|]].
  - pose proof (length_toString10_small
                  (Z.rem (Z.of_nat j + colNumStart settings) 100)) as Hlen.
    pose proof (Z.rem_bound_pos (Z.of_nat j + colNumStart settings) 100).
    lia.
  - intros Hbyte. pose proof (length_toString16_byte _ Hbyte). lia.
Qed.

Lemma stateColumns_display_width_witness :
  exists c,
    builtColumns sampleSettings sampleStats !! 11%nat = Some c
    /\ String.length (colNum99 c) = 2%nat
    /\ (2 <= String.length (colNum100 c))%nat
    /\ ((0 <= bMax plainStat <= 255)%Z -> String.length (st_bMax (stats c)) = 2%nat).
Proof.
  eexists. split; [reflexivity|].
  apply (stateColumns_display_width sampleSettings sampleStats
           (builtColumns sampleSettings sampleStats) 11%nat).
  - vm_compute. reflexivity.
  - reflexivity.
  - reflexivity.
  - simpl. lia.
Defined.

(** X5. The settings only number the columns: built under other
    settings, the same statistics give columns that agree in everything but
    [colNum99] and [colNum100].  So the columns [enableByteView] builds
    show the same offsets and statistics as those built when the file was
    loaded, also when the numbering was changed in between. *)
Theorem stateColumns_settings (settings1 settings2 : Settings)
    (columnStats : list ColumnStats) (cols1 : list StateColumn) :
  stateColumns settings1 columnStats = Ok cols1 ->
  exists cols2,
    stateColumns settings2 columnStats = Ok cols2
    /\ length cols2 = length cols1
    /\ columnView <$> cols2 = columnView <$> cols1
    /\ forall j c1 c2, cols1 !! j = Some c1 -> cols2 !! j = Some c2 ->
         selected c2 = selected c1
         /\ col_header c2 = col_header c1
         /\ dataStart c2 = dataStart c1.
Proof.
  intros Hok. pose proof (stateColumns_Ok_fits _ _ _ Hok) as Hfit.
  apply stateColumns_Ok_built in Hok. subst cols1.
  exists (builtColumns settings2 columnStats).
  split; [by apply stateColumns_ok|].
  split; [by rewrite !length_builtColumns|]. split.
  - apply list_eq; intros j. rewrite !list_lookup_fmap, !lookup_builtColumns.
    by destruct (columnStats !! j).
  - intros j c1 c2. rewrite !lookup_builtColumns.
    destruct (columnStats !! j); simpl; [|done]. by intros [= <-] [= <-].
Qed.

Lemma stateColumns_settings_witness :
  exists cols2,
    stateColumns {| colNumStart := 1; rowNumStart := 1 |} sampleStats = Ok cols2
    /\ length cols2 = length (builtColumns sampleSettings sampleStats)
    /\ columnView <$> cols2 = columnView <$> builtColumns sampleSettings sampleStats
    /\ forall j c1 c2,
         builtColumns sampleSettings sampleStats !! j = Some c1 ->
         cols2 !! j = Some c2 ->
         selected c2 = selected c1
         /\ col_header c2 = col_header c1
         /\ dataStart c2 = dataStart c1.
Proof.
  apply (stateColumns_settings sampleSettings {| colNumStart := 1; rowNumStart := 1 |}
           sampleStats (builtColumns sampleSettings sampleStats)).
  vm_compute. reflexivity.
Defined.

(** ** [_loadDat] *)

Section LoadExtras.
Context `{Collaborators}.

(** X6. When the analyzed statistics fit, [_loadDat] returns and leaves
    the statistics, the file, one fresh state column per statistics entry,
    no row sorting, and a header list that is empty for a file of row
    length 0 and otherwise holds one new unnamed byte-view header over the
    whole row; header objects that existed before are kept, and the
    columns satisfy the invariant of a fresh build. *)
Theorem loadDat_returns (settings : Settings) (parsed : DatFile) (v : Viewer) :
  fits (analyze parsed) ->
  exists v',
    _loadDat settings parsed v = (Ok tt, v')
    /\ columnStats v' = analyze parsed
    /\ datFile v' = Some parsed
    /\ columns v' = builtColumns settings (analyze parsed)
    /\ length (columns v') = length (analyze parsed)
    /\ columns_wf (columns v') (columns v')
    /\ rowSorting v' = None
    /\ rowNumberLength v'
       = calcRowNumLength (rowCount parsed) (rowNumStart settings) ROW_NUM_MIN_LENGTH
    /\ editHeader v' = editHeader v
    /\ (forall r h, vw_heap v !! r = Some h -> vw_heap v' !! r = Some h)
    /\ (rowLength parsed = 0%Z -> headers v' = [] /\ vw_heap v' = vw_heap v)
    /\ (rowLength parsed <> 0%Z ->
        exists header,
          headers v' = [header]
          /\ vw_heap v !! header = None
          /\ vw_heap v' !! header
             = Some {| hdr_name := None; hdr_offset := 0;
                       hdr_length := rowLength parsed;
                       hdr_type := byteView; cachedView := None |}).
Proof.
  intros Hfit.
  pose proof (stateColumns_ok settings _ Hfit) as Hcols.
  pose proof (columns_wf_fresh _ _ _ Hcols) as Hwf.
  unfold _loadDat, bind, modify, gets, lift, alloc.
  cbn [columnStats with_columnStats with_rowNumberLength with_datFile].
  rewrite Hcols.
  destruct (Z.eqb_spec (rowLength parsed) 0) as [Hzero|Hnonzero].
  - eexists. split; [reflexivity|]. cbn.
    rewrite length_builtColumns. do 10 (split; [done|]). done.
  - eexists. split; [reflexivity|]. cbn.
    rewrite length_builtColumns. do 8 (split; [done|]).
    split; [intros r h Hr; by apply lookup_app_l_Some|].
    split; [done|].
    intros _. exists (length (vw_heap v)). split; [done|]. split.
    + by apply lookup_ge_None_2.
    + rewrite lookup_app_r by done. by rewrite Nat.sub_diag.
Qed.

(** X7. When some analyzed construct passes the end of the row,
    [_loadDat] throws a [TypeError] half-way: the statistics, the row
    number length and the file are already those of the new file, while
    the columns, the headers, the row sorting and the header objects are
    still the old ones. *)
Theorem loadDat_throws (settings : Settings) (parsed : DatFile) (v : Viewer) :
  ~ fits (analyze parsed) ->
  exists v',
    _loadDat settings parsed v = (Throw TypeError, v')
    /\ columnStats v' = analyze parsed
    /\ datFile v' = Some parsed
    /\ rowNumberLength v'
       = calcRowNumLength (rowCount parsed) (rowNumStart settings) ROW_NUM_MIN_LENGTH
    /\ columns v' = columns v
    /\ headers v' = headers v
    /\ rowSorting v' = rowSorting v
    /\ editHeader v' = editHeader v
    /\ vw_heap v' = vw_heap v.
Proof.
  intros Hfit.
  pose proof (stateColumns_throws_TypeError settings _ Hfit) as Hthrow.
  unfold _loadDat, bind, modify, gets, lift.
  cbn [columnStats with_columnStats with_rowNumberLength with_datFile].
  rewrite Hthrow. eexists. split; [reflexivity|]. by cbn.
Qed.
End LoadExtras.

Lemma loadDat_returns_witness :
  exists v',
    @_loadDat Sample.collaborators sampleSettings fileOfEight sampleViewer = (Ok tt, v')
    /\ length (columns v') = 8%nat
    /\ headers v' = [1%nat]
    /\ vw_heap v' !! 0%nat = Some sampleHeader.
Proof.
  destruct (@loadDat_returns Sample.collaborators sampleSettings fileOfEight sampleViewer)
    as (v' & Hrun & _ & _ & _ & Hlen & _ & _ & _ & _ & Hkeep & _ & Hheader).
  { apply (bool_decide_unpack _). vm_compute. exact I. }
  exists v'. split; [exact Hrun|]. split; [exact Hlen|]. split.
  - vm_compute in Hrun. by injection Hrun as <-.
  - apply Hkeep. reflexivity.
Defined.

Lemma loadDat_throws_witness :
  exists v',
    @_loadDat overrunCollaborators sampleSettings fileOfEight sampleViewer
    = (Throw TypeError, v')
    /\ columnStats v' = overrunStats
    /\ datFile v' = Some fileOfEight
    /\ length (columns v') = 12%nat.
Proof.
  destruct (@loadDat_throws overrunCollaborators sampleSettings fileOfEight sampleViewer)
    as (v' & Hrun & Hstats & Hfile & _ & Hcols & _).
  { intros Hfit. apply (bool_decide_pack _) in Hfit. vm_compute in Hfit. exact Hfit. }
  exists v'. split; [exact Hrun|]. split; [exact Hstats|]. split; [exact Hfile|].
  rewrite Hcols. reflexivity.
Defined.

(** ** [disableByteView] and [enableByteView]: failures and the heap *)




(** With distinct offsets, a column with the header's offset is the one
    [findIndex] returns. *)
Lemma findIndex_offset_NoDup (cols : list StateColumn) (i : nat) (c : StateColumn) :
  NoDup (col_offset <$> cols) ->
  cols !! i = Some c ->
  findIndex (fun col => (col_offset col =? col_offset c)%Z) cols = Z.of_nat i.
Proof.
  intros Hnd Hc. apply findIndex_first with c; [done|by apply Z.eqb_eq|].
  intros j y Hj Hy. apply Z.eqb_neq. intros Heq.
  assert (j = i); [|lia].
  apply (NoDup_lookup (col_offset <$> cols) j i (col_offset c) Hnd);
    rewrite list_lookup_fmap; [rewrite Hy|rewrite Hc]; simpl; congruence.
Qed.



(** X9. Whatever the columns are, and whether it returns or throws,
    [disableByteView] writes to header objects nothing but [byteView]:
    every header object keeps its name, offset, length, cached view and
    the other members of its type; the header it is called on has no
    [byteView] afterwards; and the header list, the statistics and the
    file are untouched. *)
Theorem disableByteView_heap (header : href) (v : Viewer) :
  let v' := (disableByteView header v).2 in
  headers v' = headers v
  /\ columnStats v' = columnStats v
  /\ datFile v' = datFile v
  /\ length (vw_heap v') = length (vw_heap v)
  /\ (forall r h0, vw_heap v !! r = Some h0 ->
        exists h1, vw_heap v' !! r = Some h1 /\ sameButByteView h1 h0)
  /\ (forall h0, vw_heap v !! header = Some h0 ->
        exists h1, vw_heap v' !! header = Some h1
                   /\ ty_byteView (hdr_type h1) = None).
Proof.
  assert (forall h : Header, sameButByteView h h) as Hrefl by (by repeat split).
  unfold disableByteView, updateHeader, bind, deref, modify, gets, throw.
  destruct (vw_heap v !! header) as [h|] eqn:Hh.
  2:{ cbn. do 4 (split; [done|]). split; [|done].
      intros r h0 Hr. by exists h0. }
  rewrite (deref_updated header h (with_type (with_byteView None)) v Hh).
  cbn [columns with_heap with_columns].
  assert (forall r h0, vw_heap v !! r = Some h0 ->
            exists h1, <[header := with_type (with_byteView None) h]> (vw_heap v) !! r
                       = Some h1 /\ sameButByteView h1 h0) as Hframe.
  { intros r h0 Hr. destruct (decide (r = header)) as [->|Hne].
    - rewrite list_lookup_insert_eq by (by apply lookup_lt_Some in Hr).
      eexists. split; [done|].
      pose proof (eq_trans (eq_sym Hh) Hr) as E. injection E as <-.
      by repeat split.
    - rewrite list_lookup_insert_ne by done. by exists h0. }
  assert (exists h1, <[header := with_type (with_byteView None) h]> (vw_heap v) !! header
                     = Some h1 /\ ty_byteView (hdr_type h1) = None) as Hown.
  { rewrite list_lookup_insert_eq by (by apply lookup_lt_Some in Hh). by eexists. }
  match goal with
  | |- context [at_index ?l ?z] => destruct (at_index l z)
  end; cbn; rewrite length_insert; by repeat split.
Qed.





(** ** [enableByteView] on a collapsed header *)

(** The fresh columns [enableByteView] inserts, when the header's byte
    range lies within the fresh build. *)
Lemma slice_header_range (fresh : list StateColumn) (h : Header) :
  (1 <= hdr_length h)%Z -> (0 <= hdr_offset h)%Z ->
  (hdr_offset h + hdr_length h <= Z.of_nat (length fresh))%Z ->
  slice fresh (hdr_offset h + 1) (hdr_offset h + hdr_length h)
  = take (Z.to_nat (hdr_length h - 1)) (drop (S (Z.to_nat (hdr_offset h))) fresh)
  /\ length (slice fresh (hdr_offset h + 1) (hdr_offset h + hdr_length h))
     = Z.to_nat (hdr_length h - 1).
Proof.
  intros Hlen Hoff Hfit.
  replace (hdr_offset h + 1)%Z with (Z.of_nat (S (Z.to_nat (hdr_offset h)))) by lia.
  replace (hdr_offset h + hdr_length h)%Z
    with (Z.of_nat (Z.to_nat (hdr_offset h) + Z.to_nat (hdr_length h))) by lia.
  rewrite slice_within by lia.
  replace (Z.to_nat (hdr_offset h) + Z.to_nat (hdr_length h)
           - S (Z.to_nat (hdr_offset h)))%nat
    with (Z.to_nat (hdr_length h - 1)) by lia.
  split; [done|]. rewrite length_take, length_drop. lia.
Qed.

(** X12. For a header collapsed at column [i] whose byte range lies within
    the fresh build, [enableByteView] returns; it clears the back-reference
    of column [i] and inserts after it the [h.length - 1] fresh columns of
    the offsets [h.offset + 1] and on, none of them selected or owned by a
    header; the columns before and after, and the header list, are
    unchanged. *)
Theorem enableByteView_frame (settings : Settings) (header : href) (h : Header)
    (v : Viewer) (fresh : list StateColumn) (i : nat) (c : StateColumn) :
  vw_heap v !! header = Some h ->
  stateColumns settings (columnStats v) = Ok fresh ->
  NoDup (col_offset <$> columns v) ->
  columns v !! i = Some c ->
  col_offset c = hdr_offset h ->
  (1 <= hdr_length h)%Z ->
  (0 <= hdr_offset h)%Z ->
  (hdr_offset h + hdr_length h <= Z.of_nat (length fresh))%Z ->
  exists v' run,
    enableByteView settings header v = (Ok tt, v')
    /\ columns v'
       = take i (columns v) ++ with_header None c :: run ++ drop (S i) (columns v)
    /\ length run = Z.to_nat (hdr_length h - 1)
    /\ (forall k col, run !! k = Some col ->
          col_offset col = (hdr_offset h + 1 + Z.of_nat k)%Z
          /\ col_header col = None
          /\ selected col = false)
    /\ headers v' = headers v
    /\ length (columns v') = (length (columns v) + Z.to_nat (hdr_length h - 1))%nat.
Proof.
  intros Hh Hfresh Hnd Hc Hoff Hlen Hoff0 Hfit.
  pose proof (findIndex_offset_NoDup _ _ _ Hnd Hc) as Hfind. rewrite Hoff in Hfind.
  destruct (slice_header_range fresh h Hlen Hoff0 Hfit) as [Hslice Hslen].
  exists (enabledAt fresh header h i c v),
         (slice fresh (hdr_offset h + 1) (hdr_offset h + hdr_length h)).
  split; [by apply enableByteView_found|].
  split; [done|]. split; [done|]. split; [|split; [done|]].
  - intros k col. rewrite Hslice. intros Hk.
    apply lookup_take_Some in Hk as [Hk Hklt]. rewrite lookup_drop in Hk.
    destruct (stateColumns_column _ _ _ _ _ Hfresh Hk) as (stat & _ & ->).
    cbn. split; [lia|done].
  - unfold enabledAt. cbn [columns with_columns with_heap].
    rewrite length_app. cbn [length]. rewrite length_app, Hslen.
    rewrite length_take, length_drop.
    apply lookup_lt_Some in Hc. lia.
Qed.

Lemma enableByteView_frame_witness :
  exists v' run,
    enableByteView sampleSettings 0 collapsedViewer = (Ok tt, v')
    /\ columns v'
       = take 4 (columns collapsedViewer)
         ++ with_header None anchorColumn :: run ++ drop 5 (columns collapsedViewer)
    /\ length run = Z.to_nat (hdr_length collapsedHeader - 1)
    /\ (forall k col, run !! k = Some col ->
          col_offset col = (hdr_offset collapsedHeader + 1 + Z.of_nat k)%Z
          /\ col_header col = None
          /\ selected col = false)
    /\ headers v' = headers collapsedViewer
    /\ length (columns v')
       = (length (columns collapsedViewer)
          + Z.to_nat (hdr_length collapsedHeader - 1))%nat.
Proof.
  apply (enableByteView_frame sampleSettings 0%nat collapsedHeader collapsedViewer
           (builtColumns sampleSettings sampleStats) 4%nat anchorColumn).
  - reflexivity.
  - vm_compute. reflexivity.
  - apply (bool_decide_unpack _). vm_compute. exact I.
  - reflexivity.
  - reflexivity.
  - simpl. lia.
  - simpl. lia.
  - simpl. lia.
Defined.

Example collapsedViewer_is_disabled :
  disableByteView 0 sampleViewer = (Ok tt, collapsedViewer).
Proof. vm_compute. reflexivity. Qed.



(** X14. Collapsing a header built from the selection at [i] in a viewer
    whose columns come from the fresh build: [disableByteView] returns,
    the array is shorter by [h.length - 1], column [i] now refers back to
    the header with its offset, unselected, and the invariant of the
    columns (distinct offsets, each column showing what the fresh column of
    its offset shows) still holds. *)
Theorem disableByteView_collapses (header : href) (h : Header) (v : Viewer)
    (fresh : list StateColumn) (i : nat) :
  vw_heap v !! header = Some h ->
  columns_wf fresh (columns v) ->
  selectionAt (columns v) i h ->
  exists v',
    disableByteView header v = (Ok tt, v')
    /\ (length (columns v') + Z.to_nat (hdr_length h - 1) = length (columns v))%nat
    /\ columns_wf fresh (columns v')
    /\ exists c', columns v' !! i = Some c'
         /\ col_offset c' = hdr_offset h
         /\ col_header c' = Some header
         /\ selected c' = false.
Proof.
  intros Hh Hwf Hsel. pose proof Hwf as [Hnd _]. pose proof Hsel as [Hlen _].
  destruct (selectionAt_findIndex _ _ _ Hnd Hsel) as (c & Hc & Hoff & Hfind).
  assert (i + Z.to_nat (hdr_length h) <= length (columns v))%nat as Hfit.
  { destruct (selectionAt_lookup _ _ _ (Z.to_nat (hdr_length h) - 1) Hsel)
      as (cl & Hcl & _); [lia|]. apply lookup_lt_Some in Hcl. lia. }
  exists (disabledAt header h i c v).
  split; [by apply disableByteView_found|].
  split; [|split; [by apply columns_wf_disabled|]].
  - unfold disabledAt. cbn [columns with_columns with_heap].
    rewrite Z.max_l by lia.
    rewrite length_app. cbn [length]. rewrite length_take, length_drop. lia.
  - eexists. split.
    + unfold disabledAt. cbn [columns with_columns with_heap].
      rewrite lookup_app_r by (rewrite length_take; lia).
      rewrite length_take. replace (i - i `min` length (columns v))%nat with 0%nat by lia.
      reflexivity.
    + by cbn.
Qed.

Lemma disableByteView_collapses_witness :
  exists v',
    disableByteView 0 sampleViewer = (Ok tt, v')
    /\ (length (columns v') + Z.to_nat (hdr_length sampleHeader - 1)
        = length (columns sampleViewer))%nat
    /\ columns_wf (builtColumns sampleSettings sampleStats) (columns v')
    /\ exists c', columns v' !! 4%nat = Some c'
         /\ col_offset c' = hdr_offset sampleHeader
         /\ col_header c' = Some 0%nat
         /\ selected c' = false.
Proof.
  apply (disableByteView_collapses 0%nat sampleHeader sampleViewer
           (builtColumns sampleSettings sampleStats) 4%nat).
  - reflexivity.
  - apply (bool_decide_unpack _). vm_compute. exact I.
  - apply (bool_decide_unpack _). vm_compute. exact I.
Defined.

(** ** [tryImportHeaders]: the file, the offsets, the first exception *)

Section ImportExtras.
Context `{Collaborators}.

(** X15. Without a loaded file ([this.datFile] is [null]) the import of an
    empty schema returns and changes nothing, and the import of any other
    schema throws a [TypeError] at its first entry and changes nothing. *)
Theorem tryImportHeaders_no_file (serialized : list DatSerializedHeader) (v : Viewer) :
  datFile v = None ->
  tryImportHeaders serialized v
  = (match serialized with [] => Ok tt | _ :: _ => Throw TypeError end, v).
Proof.
  intros Hdf. unfold tryImportHeaders, bind, gets. rewrite Hdf.
  by destruct serialized.
Qed.

(** X16. The offset is the running sum of the decoded lengths: when the
    loop has run over the entries [pre] without exception, the offset at
    which the next entry is validated is the start offset plus the lengths
    of all entries of [pre], gaps and named entries alike. *)
Theorem importLoop_offset (df : DatFile) (columnStats0 : list ColumnStats)
    (offset offset1 : Z) (pre : list DatSerializedHeader) (v v1 : Viewer) :
  importLoop (Some df) columnStats0 offset pre v = (Ok offset1, v1) ->
  offset1 = (offset + totalLength (df_memsize df) pre)%Z.
Proof.
  revert offset v. induction pre as [|e pre IH]; intros offset v; cbn [importLoop].
  - unfold ret. intros [= <- _]. simpl. lia.
  - unfold bind.
    destruct (importEntry (Some df) columnStats0 offset e v) as [[offset'|exn] v'] eqn:He;
      [|done].
    intros Hrest. apply IH in Hrest. subst offset1.
    assert (offset' = offset + getHeaderLength e (df_memsize df))%Z as ->.
    { unfold importEntry in He.
      destruct (ser_name e); [|by injection He as <- _].
      destruct (negb _); [done|].
      unfold bind, ret in He.
      repeat match type of He with
             | context [match ?m ?s with _ => _ end] =>
                 destruct (m s) as [[?|?] ?]; try done
             | context [if ?b then _ else _] => destruct b
             end;
        by injection He as <- _. }
    simpl. lia.
Qed.

(** X17. The import stops at the first exception, whatever it is: when the
    loop over [pre] throws, [tryImportHeaders] on [pre ++ post] throws the
    same exception and leaves the same viewer, for every [post]. *)
Theorem tryImportHeaders_first_exception (pre post : list DatSerializedHeader)
    (e : Exn) (v v1 : Viewer) :
  importLoop (datFile v) (columnStats v) 0 pre v = (Throw e, v1) ->
  tryImportHeaders (pre ++ post) v = (Throw e, v1).
Proof.
  intros Hpre. unfold tryImportHeaders, bind, gets.
  by rewrite importLoop_app, Hpre.
Qed.

(** X18. A schema of gaps only (every entry unnamed) creates no header:
    the import returns and leaves the viewer as it was. *)
Theorem tryImportHeaders_gaps (serialized : list DatSerializedHeader) (df : DatFile)
    (v : Viewer) :
  datFile v = Some df ->
  Forall (fun e => ser_name e = None) serialized ->
  tryImportHeaders serialized v = (Ok tt, v).
Proof.
  intros Hdf Hgaps. unfold tryImportHeaders, bind, gets. rewrite Hdf.
  assert (forall offset, importLoop (Some df) (columnStats v) offset serialized v
                         = (Ok (offset + totalLength (df_memsize df) serialized)%Z, v))
    as Hloop.
  { induction Hgaps as [|e rest He _ IH]; intros offset; cbn [importLoop].
    - unfold ret. simpl. do 2 f_equal. lia.
    - unfold bind. rewrite importEntry_gap by done. rewrite IH.
      simpl. do 2 f_equal. lia. }
  by rewrite Hloop.
Qed.
End ImportExtras.

Lemma tryImportHeaders_no_file_witness :
  @tryImportHeaders Sample.collaborators [entryA; entryB] emptyViewer
  = (Throw TypeError, emptyViewer).
Proof.
  apply (@tryImportHeaders_no_file Sample.collaborators [entryA; entryB] emptyViewer).
  reflexivity.
Defined.

Lemma importLoop_offset_witness :
  8%Z = (0 + @totalLength Sample.collaborators 4 [entryA; entryGap])%Z.
Proof.
  eapply (@importLoop_offset Sample.collaborators fileOfEight plainStats 0%Z 8%Z
            [entryA; entryGap] loadedViewer).
  vm_compute. reflexivity.
Defined.

Lemma tryImportHeaders_first_exception_witness :
  exists v1,
    @tryImportHeaders Sample.collaborators ([entryA; entryBad] ++ [entryB]) loadedViewer
    = (Throw (Error "The schema is invalid."), v1).
Proof.
  eexists.
  apply (@tryImportHeaders_first_exception Sample.collaborators
           [entryA; entryBad] [entryB] (Error "The schema is invalid.") loadedViewer).
  vm_compute. reflexivity.
Defined.

Lemma tryImportHeaders_gaps_witness :
  @tryImportHeaders Sample.collaborators [entryGap; entryGap] loadedViewer
  = (Ok tt, loadedViewer).
Proof.
  apply (@tryImportHeaders_gaps Sample.collaborators [entryGap; entryGap] fileOfEight
           loadedViewer).
  - reflexivity.
  - repeat constructor.
Defined.

(** ** [loadDat] *)

Section LoadDatExtras.
Context `{Collaborators}.

(** X19. When the analyzed statistics do not fit, [loadDat] shows the
    [TypeError] of [_loadDat] and throws it again; the schema is not
    imported, so the viewer is the half-loaded one [_loadDat] leaves:
    new statistics and file, old columns and headers. *)
Theorem loadDat_load_fails (settings : Settings) (parsed : DatFile)
    (meta : DatFileMeta) (overrideHeaders : option (list DatSerializedHeader))
    (v : Viewer) :
  ~ fits (analyze parsed) ->
  exists v',
    loadDat settings parsed meta overrideHeaders v = (Throw TypeError, v', [TypeError])
    /\ columnStats v' = analyze parsed
    /\ datFile v' = Some parsed
    /\ columns v' = columns v
    /\ headers v' = headers v
    /\ vw_heap v' = vw_heap v.
Proof.
  intros Hfit. unfold loadDat.
  pose proof (stateColumns_throws_TypeError settings _ Hfit) as Hthrow.
  unfold _loadDat, bind, modify, gets, lift.
  cbn [columnStats with_columnStats with_rowNumberLength with_datFile].
  rewrite Hthrow. eexists. split; [reflexivity|]. by cbn.
Qed.

(** X20. When the analyzed statistics fit, [loadDat] always returns, also
    when the import of the schema throws: the viewer is the one the import
    left, and the exception of the import, if any, is the only alert.  An
    override, even an empty one, replaces the schema stored with the file:
    with the empty override nothing is imported and nothing is shown. *)
Theorem loadDat_returns_when_fits (settings : Settings) (parsed : DatFile)
    (meta : DatFileMeta) (overrideHeaders : option (list DatSerializedHeader))
    (v : Viewer) :
  fits (analyze parsed) ->
  exists v1,
    _loadDat settings parsed v = (Ok tt, v1)
    /\ loadDat settings parsed meta overrideHeaders v
       = (Ok tt,
          (tryImportHeaders (default (meta_headers meta) overrideHeaders) v1).2,
          match (tryImportHeaders (default (meta_headers meta) overrideHeaders) v1).1 with
          | Ok _ => []
          | Throw e => [e]
          end)
    /\ loadDat settings parsed meta (Some []) v = (Ok tt, v1, []).
Proof.
  intros Hfit.
  assert (exists v1, _loadDat settings parsed v = (Ok tt, v1)) as [v1 Hload].
  { unfold _loadDat, bind, modify, gets, lift, alloc.
    cbn [columnStats with_columnStats with_rowNumberLength with_datFile].
    rewrite (stateColumns_ok settings _ Hfit).
    destruct (rowLength parsed =? 0)%Z; by eexists. }
  exists v1. split; [done|]. unfold loadDat. rewrite Hload. split.
  - destruct overrideHeaders as [hs|]; cbn [default];
      by destruct (tryImportHeaders _ v1) as [[[]|e] v2].
  - unfold tryImportHeaders, bind, gets, ret. by cbn.
Qed.
End LoadDatExtras.

Lemma loadDat_load_fails_witness :
  exists v',
    @loadDat overrunCollaborators sampleSettings fileOfEight sampleMeta None sampleViewer
    = (Throw TypeError, v', [TypeError])
    /\ columnStats v' = overrunStats
    /\ datFile v' = Some fileOfEight
    /\ columns v' = columns sampleViewer
    /\ headers v' = headers sampleViewer
    /\ vw_heap v' = vw_heap sampleViewer.
Proof.
  apply (@loadDat_load_fails overrunCollaborators sampleSettings fileOfEight sampleMeta
           None sampleViewer).
  intros Hfit. apply (bool_decide_pack _) in Hfit. vm_compute in Hfit. exact Hfit.
Defined.

Lemma loadDat_returns_when_fits_witness :
  exists v1 v2,
    @_loadDat Sample.collaborators sampleSettings fileOfEight emptyViewer = (Ok tt, v1)
    /\ @loadDat Sample.collaborators sampleSettings fileOfEight sampleMeta None emptyViewer
       = (Ok tt, v2, [Error "The schema is invalid."])
    /\ (col_header <$> columns v2) = [Some 1%nat; None; None; None; None]
    /\ @loadDat Sample.collaborators sampleSettings fileOfEight sampleMeta (Some [])
         emptyViewer = (Ok tt, v1, []).
Proof.
  destruct (@loadDat_returns_when_fits Sample.collaborators sampleSettings fileOfEight
              sampleMeta None emptyViewer) as (v1 & Hload & Hrun & Hempty).
  { apply (bool_decide_unpack _). vm_compute. exact I. }
  exists v1. eexists. split; [exact Hload|]. split; [|split; [|exact Hempty]].
  - rewrite Hrun. vm_compute in Hload. injection Hload as <-.
    vm_compute. reflexivity.
  - vm_compute. reflexivity.
Defined.

(** ** [collectData]: the shape of the rows *)

Lemma fromEntries_is_Some (es : list (string * Value)) (key : string) :
  is_Some (fromEntries es !! key) <-> key ∈ es.*1.
Proof.
  induction es as [|[key' val'] es IH] using rev_ind.
  - split; [by intros [? ?]|by intros ?%elem_of_nil].
  - rewrite fromEntries_snoc, fmap_app, elem_of_app. simpl.
    rewrite list_elem_of_singleton.
    destruct (decide (key' = key)) as [->|Hne].
    + rewrite lookup_insert_eq. split; [by right|by eexists].
    + rewrite lookup_insert_ne by done. rewrite IH.
      split; [by left|]. intros [?|?]; [done|congruence].
Qed.

Lemma fromEntries_size_le (es : list (string * Value)) :
  (size (fromEntries es) <= length es)%nat.
Proof.
  induction es as [|[key val] es IH] using rev_ind; [done|].
  rewrite fromEntries_snoc, length_app. simpl.
  destruct (fromEntries es !! key) as [old|] eqn:Hk.
  - rewrite map_size_insert_Some by done. lia.
  - rewrite map_size_insert_None by done. lia.
Qed.

Section CollectExtras.
Context `{Collaborators}.

(** X21. Whenever [collectData] returns, a file is loaded and there is one
    row per row of the file; the keys of every row are ["_rid"] and the
    names of the columns, so a row has at most one key more than there are
    columns; and if no column is named ["_rid"], the ["_rid"] of the
    [k]-th row is [k], whatever other names collide. *)
Theorem collectData_shape (v : Viewer) (rows : list Row) :
  collectData v = Ok rows ->
  exists df cols,
    datFile v = Some df
    /\ collectColumns v = Ok cols
    /\ length rows = rowCount df
    /\ forall k row, rows !! k = Some row ->
         (forall key, is_Some (row !! key) <-> key = "_rid" \/ key ∈ name <$> cols)
         /\ (size row <= S (length cols))%nat
         /\ (Forall (fun col => name col <> "_rid") cols ->
             row !! "_rid" = Some (VNum (Z.of_nat k))).
Proof.
  unfold collectData. intros Hrun.
  destruct (collectColumns v) as [cols|] eqn:Hcols; [|done]. cbn [rbind] in Hrun.
  destruct (datFile v) as [df|] eqn:Hdf; [|done]. injection Hrun as <-.
  exists df, cols. split; [done|]. split; [done|].
  split; [apply length_buildRows|].
  intros k row Hrow. apply lookup_buildRows in Hrow as [Hk ->].
  set (entries := map _ _).
  assert (entries.*1 = "_rid" :: (name <$> cols)) as Hkeys.
  { unfold entries. simpl. f_equal. by rewrite <- list_fmap_compose. }
  split; [|split].
  - intros key. rewrite fromEntries_is_Some, Hkeys, elem_of_cons. done.
  - etrans; [apply fromEntries_size_le|]. unfold entries. by rewrite length_map.
  - intros Hnames. unfold entries. cbn [map].
    rewrite <- (dataAt_ridColumn (rowCount df)) by done.
    apply (fromEntries_last []).
    apply Forall_forall. intros [key val] Hin. simpl.
    apply list_elem_of_In, in_map_iff in Hin as (c & [= <- <-] & Hc).
    rewrite Forall_forall in Hnames. apply Hnames. by apply list_elem_of_In.
Qed.

(** The [map] over the headers throws the exception of the first header
    whose column throws. *)
Lemma toColumnsFrom_first_throw thisDatFile idx (pre : list Header) header rest e :
  Forall (fun h => isOk (columnData thisDatFile h) = true) pre ->
  columnData thisDatFile header = Throw e ->
  toColumnsFrom thisDatFile idx (pre ++ header :: rest) = Throw e.
Proof.
  intros Hpre Hthrow. revert idx.
  induction Hpre as [|h pre Hh _ IH]; intros idx; cbn [app toColumnsFrom].
  - unfold toColumn. by rewrite Hthrow.
  - unfold toColumn at 1. destruct (columnData thisDatFile h); [|done].
    cbn [rbind]. by rewrite IH.
Qed.

(** X22. Without a loaded file [collectData] never returns: when all
    columns could be computed it throws a [TypeError]; otherwise it throws
    the exception of the columns, which is that of the first materializable
    header whose column throws. *)
Theorem collectData_no_file (v : Viewer) :
  datFile v = None ->
  isOk (collectData v) = false
  /\ (forall cols, collectColumns v = Ok cols -> collectData v = Throw TypeError)
  /\ (forall e, collectColumns v = Throw e -> collectData v = Throw e)
  /\ (forall hs pre header rest e,
        thisHeaders v = Ok hs ->
        materializableHeaders hs = pre ++ header :: rest ->
        Forall (fun h => isOk (columnData (datFile v) h) = true) pre ->
        columnData (datFile v) header = Throw e ->
        collectData v = Throw e).
Proof.
  intros Hdf. unfold collectData. rewrite Hdf.
  split; [by destruct (collectColumns v)|].
  split; [by intros cols ->|]. split; [by intros e ->|].
  intros hs pre header rest e Hhs Hsplit Hpre Hthrow.
  unfold collectColumns. rewrite Hhs. cbn [rbind]. rewrite Hsplit, Hdf.
  by rewrite (toColumnsFrom_first_throw None 0 pre header rest e).
Qed.

Lemma unknown_name_inj (j k : nat) :
  "Unknown" +:+ toString10 (Z.of_nat j + 1) = "Unknown" +:+ toString10 (Z.of_nat k + 1) ->
  j = k.
Proof.
  intros Heq.
  assert (forall s a b : string, s +:+ a = s +:+ b -> a = b) as Happ.
  { intros s a b. induction s as [|ch s IH]; simpl; [done|].
    intros [= Hs]. by apply IH. }
  apply Happ in Heq. unfold toString10 in Heq.
  apply (inj (pretty : Z -> string)) in Heq. lia.
Qed.

(** X23. Two headers without a name (name [null] or empty) never share a
    column: the names [Unknown<N>] synthesized at different positions
    differ. *)
Theorem unknown_names_distinct (v : Viewer) (hs : list Header) (cols : list Column)
    (j k : nat) (h1 h2 : Header) (c1 c2 : Column) :
  thisHeaders v = Ok hs ->
  collectColumns v = Ok cols ->
  materializableHeaders hs !! j = Some h1 ->
  materializableHeaders hs !! k = Some h2 ->
  (hdr_name h1 = None \/ hdr_name h1 = Some "") ->
  (hdr_name h2 = None \/ hdr_name h2 = Some "") ->
  j <> k ->
  cols !! j = Some c1 ->
  cols !! k = Some c2 ->
  name c1 <> name c2.
Proof.
  intros Hhs Hcols Hj Hk Hn1 Hn2 Hjk Hc1 Hc2.
  unfold collectColumns in Hcols. rewrite Hhs in Hcols. cbn [rbind] in Hcols.
  apply toColumnsFrom_Ok in Hcols as [_ Hlook].
  destruct (Hlook j h1 Hj) as (c1' & Hc1' & Hname1 & _).
  destruct (Hlook k h2 Hk) as (c2' & Hc2' & Hname2 & _).
  assert (c1' = c1) as -> by congruence. assert (c2' = c2) as -> by congruence.
  rewrite Hname1, Hname2. unfold columnName. cbn [Nat.add].
  intros Heq. apply Hjk.
  destruct Hn1 as [Hn1|Hn1], Hn2 as [Hn2|Hn2]; rewrite Hn1, Hn2 in Heq;
    by apply unknown_name_inj.
Qed.

End CollectExtras.

Lemma collectData_shape_witness :
  exists rows df cols,
    @collectData Sample.collaborators (viewerOf clashHeaders) = Ok rows
    /\ datFile (viewerOf clashHeaders) = Some df
    /\ @collectColumns Sample.collaborators (viewerOf clashHeaders) = Ok cols
    /\ length rows = rowCount df
    /\ forall k row, rows !! k = Some row ->
         (forall key, is_Some (row !! key) <-> key = "_rid" \/ key ∈ name <$> cols)
         /\ (size row <= S (length cols))%nat
         /\ (Forall (fun col => name col <> "_rid") cols ->
             row !! "_rid" = Some (VNum (Z.of_nat k))).
Proof.
  destruct (@collectData Sample.collaborators (viewerOf clashHeaders)) as [rows|e] eqn:E;
    [|vm_compute in E; discriminate].
  destruct (@collectData_shape Sample.collaborators (viewerOf clashHeaders) rows E)
    as (df & cols & Hshape).
  exists rows, df, cols. split; [reflexivity|exact Hshape].
Defined.

Lemma collectData_no_file_witness :
  (isOk (@collectData Sample.collaborators (with_datFile None (viewerOf keyHeaders)))
   = false
   /\ @collectData Sample.collaborators (with_datFile None (viewerOf keyHeaders))
      = Throw TypeError)
  /\ @collectData Sample.collaborators (with_datFile None (viewerOf brokenHeaders))
     = Throw (Error "never").
Proof.
  destruct (@collectData_no_file Sample.collaborators
              (with_datFile None (viewerOf keyHeaders))) as (Hnot & Hok & _);
    [reflexivity|].
  destruct (@collectData_no_file Sample.collaborators
              (with_datFile None (viewerOf brokenHeaders))) as (_ & _ & _ & Hfirst);
    [reflexivity|].
  split; [split; [exact Hnot|]|].
  - eapply Hok. vm_compute. reflexivity.
  - apply (Hfirst brokenHeaders [idHeader] brokenKeyHeader [uncachedHeader]).
    + reflexivity.
    + reflexivity.
    + repeat constructor.
    + reflexivity.
Defined.

Lemma unknown_names_distinct_witness :
  exists cols c1 c2,
    @collectColumns Sample.collaborators (viewerOf unnamedHeaders) = Ok cols
    /\ cols !! 0%nat = Some c1
    /\ cols !! 2%nat = Some c2
    /\ name c1 <> name c2.
Proof.
  eexists _, _, _. split; [vm_compute; reflexivity|].
  split; [reflexivity|]. split; [reflexivity|].
  eapply (@unknown_names_distinct Sample.collaborators (viewerOf unnamedHeaders)
            unnamedHeaders _ 0%nat 2%nat emptyNameHeader foreignHeader).
  - reflexivity.
  - vm_compute. reflexivity.
  - reflexivity.
  - reflexivity.
  - right. reflexivity.
  - left. reflexivity.
  - lia.
  - reflexivity.
  - reflexivity.
Defined.

(** ** [collectData]: the foreign-key branches on any decoded data *)

Lemma every_stops {A} (p : A -> Result bool) (pre : list A) (x : A) (rest : list A) :
  Forall (fun y => p y = Ok true) pre ->
  every p (pre ++ x :: rest)
  = (try! b := p x in if b then every p rest else Ok false).
Proof.
  induction 1 as [|y pre Hy _ IH]; [done|].
  simpl. rewrite Hy. simpl. exact IH.
Qed.

Lemma forallb_false_exists {A} (q : A -> bool) (l : list A) :
  forallb q l = false -> exists x, x ∈ l /\ q x = false.
Proof.
  induction l as [|x l IH]; simpl; [done|].
  destruct (q x) eqn:Hx; simpl.
  - intros Hl. destruct (IH Hl) as (y & Hy & Hq). exists y. split; [by right|done].
  - intros _. exists x. split; [by left|done].
Qed.

Section ForeignKeyExtras.
Context `{Collaborators}.

(** X24. A foreign key that is not an array never raises a [TypeError] in
    [collectData], whatever was decoded: when every entry is [null],
    [undefined] or a key object whose [unknown] is 0, the column holds the
    [rid] of each key and keeps [null] and [undefined]; when some entry is
    anything else (a key with another [unknown], a number, a string, a
    boolean, an array), the column throws the assertion ['never']. *)
Theorem foreign_key_any_data (thisDatFile : option DatFile) (header : Header) :
  isForeign (hdr_type header) = true ->
  isArrayRef (hdr_type header) = false ->
  (forallb acceptedKey (headerData thisDatFile header) = true
   /\ columnData thisDatFile header = Ok (ridOf <$> headerData thisDatFile header))
  \/ (exists row, row ∈ headerData thisDatFile header /\ acceptedKey row = false)
     /\ columnData thisDatFile header = Throw (Error "never").
Proof.
  intros Hforeign Harray. unfold columnData. rewrite Hforeign, Harray. cbn [negb].
  rewrite foreignRids_spec.
  destruct (forallb acceptedKey (headerData thisDatFile header)) eqn:Hacc.
  - by left.
  - right. split; [|done]. by apply forallb_false_exists.
Qed.

(** X25. For an array key a row that is no array, [null] included, is not
    skipped as for a plain key: when the rows before it are arrays of keys
    whose [unknown] is 0, the column, and with it [collectData], throws a
    [TypeError]. *)
Theorem foreign_array_key_bad_row (thisDatFile : option DatFile) (header : Header)
    (pre rest : list Value) (row : Value) :
  isForeign (hdr_type header) = true ->
  isArrayRef (hdr_type header) = true ->
  headerData thisDatFile header = pre ++ row :: rest ->
  forallb isKeyArray pre = true ->
  forallb unknownZero pre = true ->
  (forall entries, row <> VArr entries) ->
  columnData thisDatFile header = Throw TypeError.
Proof.
  intros Hforeign Harray Hdata Htyped Hzero Hrow.
  unfold columnData. rewrite Hforeign, Harray, Hdata. cbn [negb].
  unfold foreignRidArrays. rewrite every_stops.
  - destruct row; try done. by destruct (Hrow items).
  - rewrite forallb_forall in Htyped, Hzero.
    apply Forall_forall. intros r Hr. apply list_elem_of_In in Hr.
    specialize (Htyped r Hr). specialize (Hzero r Hr).
    destruct r as [| | | | | |entries]; try done. simpl in *.
    rewrite (every_pure _ (fun e => match e with VKey _ u => (u =? 0)%Z | _ => true end)).
    + by rewrite Hzero.
    + rewrite forallb_forall in Htyped. apply Forall_forall. intros e He.
      apply list_elem_of_In, Htyped in He.
      destruct e; try done; simpl; by rewrite strictEqZero_VNum.
Qed.
End ForeignKeyExtras.

Lemma foreign_key_any_data_witness :
  (exists row, row ∈ @headerData Sample.collaborators (Some sampleFile) numberEntryHeader
               /\ acceptedKey row = false)
  /\ @columnData Sample.collaborators (Some sampleFile) numberEntryHeader
     = Throw (Error "never").
Proof.
  destruct (@foreign_key_any_data Sample.collaborators (Some sampleFile) numberEntryHeader)
    as [[Hacc _]|Hbad].
  - reflexivity.
  - reflexivity.
  - vm_compute in Hacc. discriminate.
  - exact Hbad.
Defined.

Lemma foreign_array_key_bad_row_witness :
  @columnData Sample.collaborators (Some sampleFile) nullRowHeader = Throw TypeError.
Proof.
  apply (@foreign_array_key_bad_row Sample.collaborators (Some sampleFile) nullRowHeader
           [VArr [VKey 1 0]] [VArr [VKey 3 0]] VNull).
  - reflexivity.
  - reflexivity.
  - reflexivity.
  - reflexivity.
  - reflexivity.
  - discriminate.
Defined.

(** * Which methods shorten the column array *)

Section ShrinkProps.
Context `{Collaborators}.

(** An iteration of the import either leaves as many state columns as it
    found, or it is the import of a materializable field and its last step
    is a call of [disableByteView] on a viewer with as many columns as the
    iteration found. *)
Lemma importEntry_length datFile0 columnStats0 offset e v :
  collaboratorsKeepColumns ->
  length (columns (importEntry datFile0 columnStats0 offset e v).2) = length (columns v)
  \/ (materializable (ser_type e) = true
      /\ exists header v1,
           length (columns v1) = length (columns v)
           /\ (importEntry datFile0 columnStats0 offset e v).2
              = (disableByteView header v1).2).
Proof.
  intros (Hsel & Hcreate & Hclear & Hcache). unfold importEntry.
  destruct datFile0 as [df|]; [|by left].
  destruct (ser_name e) as [name0|]; [|by left].
  destruct (negb _); [by left|]. unfold bind, ret.
  specialize (Hsel {| hdr_name := None; hdr_offset := offset;
                      hdr_length := getHeaderLength e (df_memsize df);
                      hdr_type := ser_type e; cachedView := None |} v).
  destruct (selectColsByHeader _ v) as [[[]|e1] v1]; simpl in Hsel; [|by left].
  specialize (Hcreate v1).
  destruct (createHeaderFromSelected v1) as [[header|e2] v2]; simpl in Hcreate;
    [|left; simpl; lia].
  pose proof (updateHeader_columns header (with_name (Some name0)) v2) as Hname.
  destruct (updateHeader header (with_name (Some name0)) v2) as [[[]|e3] v3];
    simpl in Hname; [|left; simpl; rewrite Hname; lia].
  specialize (Hclear v3).
  destruct (clearColumnSelection v3) as [[[]|e4] v4]; simpl in Hclear;
    [|left; simpl; rewrite Hclear, Hname; lia].
  destruct (materializable (ser_type e)) eqn:Hm.
  2:{ left. simpl. rewrite Hclear, Hname. lia. }
  pose proof (updateHeader_columns header (with_type (fun _ => ser_type e)) v4) as Htype.
  destruct (updateHeader header (with_type (fun _ => ser_type e)) v4) as [[[]|e5] v5];
    simpl in Htype; [|left; simpl; rewrite Htype, Hclear, Hname; lia].
  unfold this_datFile, gets.
  specialize (Hcache header (datFile v5) v5).
  destruct (cacheHeaderDataView header (datFile v5) v5) as [[[]|e6] v6];
    simpl in Hcache; [|left; simpl; rewrite Hcache, Htype, Hclear, Hname; lia].
  right. split; [done|]. exists header, v6. split.
  - rewrite Hcache, Htype, Hclear, Hname. lia.
  - by destruct (disableByteView header v6) as [[[]|e7] v7].
Qed.

(** A schema without materializable fields leaves as many state columns
    as it finds. *)
Lemma importLoop_keeps_length datFile0 columnStats0 offset serialized v :
  collaboratorsKeepColumns ->
  Forall (fun e => materializable (ser_type e) = false) serialized ->
  length (columns (importLoop datFile0 columnStats0 offset serialized v).2)
  = length (columns v).
Proof.
  intros Hkeep Hbytes. revert offset v.
  induction Hbytes as [|e rest He _ IH]; intros offset v; [done|].
  cbn [importLoop]. unfold bind.
  destruct (importEntry_length datFile0 columnStats0 offset e v Hkeep)
    as [Hlen|[Hm _]]; [|congruence].
  destruct (importEntry datFile0 columnStats0 offset e v) as [[offset'|exn] v'];
    simpl in Hlen; [|done].
  by rewrite IH.
Qed.

(** C6, as amended.  For a header [h] (of at least one byte) whose offset
    is the offset of some state column, [disableByteView] returns, and
    replaces the [h.length] entries that start at the first such column by
    a single entry: that column with its [header] set to [h] and its
    [selected] cleared, nothing else of it changed; the entries before and
    after are unchanged and keep their order.  Of the methods that edit the
    array in place it is the only one that shortens it: [enableByteView]
    never does, and an iteration of [tryImportHeaders] changes the length
    only by its call of [disableByteView], given that the imported
    selection, header and caching functions leave the number of columns
    alone; so the import of a schema without materializable fields keeps
    the length.  ([_loadDat] replaces the array by a fresh build.) *)
Theorem disableByteView_frame (settings : Settings) (header : href) (h : Header)
    (v : Viewer) :
  collaboratorsKeepColumns ->
  vw_heap v !! header = Some h ->
  (1 <= hdr_length h)%Z ->
  Exists (fun col => col_offset col = hdr_offset h) (columns v) ->
  (exists i c c' v',
      columns v !! i = Some c
      /\ col_offset c = hdr_offset h
      /\ (forall j c0, (j < i)%nat -> columns v !! j = Some c0 ->
                       col_offset c0 <> hdr_offset h)
      /\ disableByteView header v = (Ok tt, v')
      /\ columns v'
         = take i (columns v) ++ c' :: drop (i + Z.to_nat (hdr_length h)) (columns v)
      /\ col_header c' = Some header
      /\ selected c' = false
      /\ col_offset c' = col_offset c
      /\ colNum99 c' = colNum99 c
      /\ colNum100 c' = colNum100 c
      /\ dataStart c' = dataStart c
      /\ stats c' = stats c
      /\ headers v' = headers v
      /\ columnStats v' = columnStats v)
  /\ (forall header' v0,
        (length (columns v0)
         <= length (columns (enableByteView settings header' v0).2))%nat)
  /\ (forall datFile0 columnStats0 offset e v0,
        length (columns (importEntry datFile0 columnStats0 offset e v0).2)
        = length (columns v0)
        \/ (materializable (ser_type e) = true
            /\ exists header' v1,
                 length (columns v1) = length (columns v0)
                 /\ (importEntry datFile0 columnStats0 offset e v0).2
                    = (disableByteView header' v1).2))
  /\ (forall serialized v0,
        Forall (fun e => materializable (ser_type e) = false) serialized ->
        length (columns (tryImportHeaders serialized v0).2) = length (columns v0)).
Proof.
  intros Hkeep Hh Hlen Hex.
  split; [|split; [intros; apply enableByteView_length|split]].
  - destruct (findIndex_found (fun col => (col_offset col =? hdr_offset h)%Z) (columns v))
      as (i & c & Hfind & Hc & Hp & Hfirst).
    { eapply Exists_impl; [exact Hex|]. intros col Hcol. by apply Z.eqb_eq. }
    exists i, c, (with_selected false (with_header (Some header) c)),
           (disabledAt header h i c v).
    split; [done|]. split; [by apply Z.eqb_eq|].
    split. { intros j c0 Hj Hc0. apply Z.eqb_neq. by apply (Hfirst j). }
    split; [by apply disableByteView_found|].
    split. { unfold disabledAt. cbn. by rewrite Z.max_l by lia. }
    by cbn.
  - intros. by apply importEntry_length.
  - intros serialized v0 Hbytes. unfold tryImportHeaders, bind, gets, ret.
    pose proof (importLoop_keeps_length (datFile v0) (columnStats v0) 0 serialized v0
                  Hkeep Hbytes) as Hloop.
    by destruct (importLoop (datFile v0) (columnStats v0) 0 serialized v0)
      as [[offset'|exn] v'].
Qed.
End ShrinkProps.

(** The sample collaborators leave the number of columns alone. *)
Lemma sample_collaborators_keep_columns :
  @collaboratorsKeepColumns Sample.collaborators.
Proof.
  split; [|split; [|split]].
  - intros header v. cbn. apply length_map.
  - intros v. cbn. unfold Sample.createHeaderFromSelected.
    by destruct (List.filter selected (columns v)).
  - intros v. cbn. apply length_map.
  - intros header thisDatFile v. cbn.
    unfold Sample.cacheHeaderDataView, bind, deref.
    destruct (vw_heap v !! header) as [h|]; [|done].
    by rewrite updateHeader_columns.
Qed.

Lemma disableByteView_frame_witness :
  (exists i c c' v',
      columns sampleViewer !! i = Some c
      /\ col_offset c = hdr_offset sampleHeader
      /\ (forall j c0, (j < i)%nat -> columns sampleViewer !! j = Some c0 ->
                       col_offset c0 <> hdr_offset sampleHeader)
      /\ disableByteView 0 sampleViewer = (Ok tt, v')
      /\ columns v'
         = take i (columns sampleViewer)
           ++ c' :: drop (i + Z.to_nat (hdr_length sampleHeader)) (columns sampleViewer)
      /\ col_header c' = Some 0%nat
      /\ selected c' = false
      /\ col_offset c' = col_offset c
      /\ colNum99 c' = colNum99 c
      /\ colNum100 c' = colNum100 c
      /\ dataStart c' = dataStart c
      /\ stats c' = stats c
      /\ headers v' = headers sampleViewer
      /\ columnStats v' = columnStats sampleViewer)
  /\ (forall header' v0,
        (length (columns v0)
         <= length (columns (enableByteView sampleSettings header' v0).2))%nat)
  /\ (forall datFile0 columnStats0 offset e v0,
        length (columns (@importEntry Sample.collaborators datFile0 columnStats0
                           offset e v0).2)
        = length (columns v0)
        \/ (materializable (ser_type e) = true
            /\ exists header' v1,
                 length (columns v1) = length (columns v0)
                 /\ (@importEntry Sample.collaborators datFile0 columnStats0
                       offset e v0).2
                    = (disableByteView header' v1).2))
  /\ (forall serialized v0,
        Forall (fun e => materializable (ser_type e) = false) serialized ->
        length (columns (@tryImportHeaders Sample.collaborators serialized v0).2)
        = length (columns v0)).
Proof.
  apply (@disableByteView_frame Sample.collaborators sampleSettings 0%nat sampleHeader
           sampleViewer).
  - exact sample_collaborators_keep_columns.
  - reflexivity.
  - simpl. lia.
  - apply (bool_decide_unpack _). vm_compute. exact I.
Defined.

Example tryImportHeaders_byte_view_entry :
  (fun r => (r.1, length (columns r.2), headers r.2))
    (@tryImportHeaders Sample.collaborators [entryBytes; entryGap] loadedViewer)
  = (Ok tt, 8%nat, [0%nat]).
Proof. vm_compute. reflexivity. Qed.

(** C6 as stated fails: [disableByteView] is not the only method that
    leaves a shorter column array.  [_loadDat] on a file of eight bytes per
    row, in a viewer that shows twelve columns, returns and leaves eight. *)
Lemma loadDat_shrinks_columns :
  (exists v',
      @_loadDat Sample.collaborators sampleSettings fileOfEight sampleViewer = (Ok tt, v')
      /\ length (columns sampleViewer) = 12%nat
      /\ length (columns v') = 8%nat)
  /\ ~ (forall v0 v1,
          @_loadDat Sample.collaborators sampleSettings fileOfEight v0 = (Ok tt, v1) ->
          (length (columns v0) <= length (columns v1))%nat).
Proof.
  assert (exists v',
            @_loadDat Sample.collaborators sampleSettings fileOfEight sampleViewer
            = (Ok tt, v')
            /\ length (columns sampleViewer) = 12%nat
            /\ length (columns v') = 8%nat) as Hrun.
  { eexists. split; [vm_compute; reflexivity|]. split; reflexivity. }
  split; [exact Hrun|].
  destruct Hrun as (v' & Hload & Hbefore & Hafter).
  intros Hnever. specialize (Hnever sampleViewer v' Hload). lia.
Qed.
